(** * Tab Copy plugin: the link resolver and the double-click trigger manager

    A shallow embedding of the two TypeScript sources of the plugin:
    the annotated source (src/unnamed/part_000, which reports through
    [Notice]) and src/main.ts (which reports through [console]).

    The browser and Obsidian facilities the code calls — [document.querySelector],
    [getAttribute], [addEventListener] / [removeEventListener],
    [navigator.clipboard.writeText], [new Notice], [console.log],
    [MutationObserver] — are modelled in [Module Dom] and [Module Host];
    the plugin's own methods keep their source names. *)

From Stdlib Require Import String List Bool Arith Lia.
Import ListNotations.
Local Open Scope string_scope.
Local Open Scope list_scope.

(* ================================================================== *)
(** ** The document tree and [querySelector] *)
(* ================================================================== *)

Module Dom.

(** An element of the host UI tree.  [eid] stands for the identity of
    the DOM node (the event-listener registry is keyed by it);
    [innerText] is the rendered text the host reports for the node. *)
#[warnings="-register-all"]
Inductive Element : Type :=
  Node (eid : nat) (localName : string) (classList : list string)
       (attributes : list (string * string)) (innerText : string)
       (children : list Element).

Definition eid (e : Element) : nat :=
  match e with Node i _ _ _ _ _ => i end.
Definition localName (e : Element) : string :=
  match e with Node _ t _ _ _ _ => t end.
Definition classList (e : Element) : list string :=
  match e with Node _ _ c _ _ _ => c end.
Definition attributes (e : Element) : list (string * string) :=
  match e with Node _ _ _ a _ _ => a end.
Definition innerText (e : Element) : string :=
  match e with Node _ _ _ _ t _ => t end.
Definition children (e : Element) : list Element :=
  match e with Node _ _ _ _ _ k => k end.

(** [el.getAttribute(name)]: the value of the first attribute called
    [name], [None] standing for JavaScript's [null]. *)
Fixpoint lookupAttribute (name : string) (attrs : list (string * string))
  : option string :=
  match attrs with
  | [] => None
  | (k, v) :: rest => if String.eqb k name then Some v else lookupAttribute name rest
  end.

Definition getAttribute (name : string) (e : Element) : option string :=
  lookupAttribute name (attributes e).

(** A compound selector: an optional type selector followed by class
    selectors, e.g. [webview] or [.view-content.webviewer-content]. *)
Record Compound : Type := mkCompound {
  selTag : option string;
  selClasses : list string
}.

(** A complex selector built with the descendant combinator only
    (a space in the selector text), outermost compound first. *)
Definition Selector : Type := list Compound.

Definition hasClass (e : Element) (c : string) : bool :=
  existsb (String.eqb c) (classList e).

Definition matchesCompound (c : Compound) (e : Element) : bool :=
  match selTag c with
  | Some t => String.eqb t (localName e)
  | None => true
  end && forallb (hasClass e) (selClasses c).

(** [matchesAncestors cs anc]: the compounds [cs] (innermost first) are
    matched, in order, by some of the ancestors [anc] (nearest first). *)
Fixpoint matchesAncestors (cs : list Compound) (anc : list Element) : bool :=
  match cs with
  | [] => true
  | c :: cs' =>
      match anc with
      | [] => false
      | a :: anc' =>
          if matchesCompound c a then matchesAncestors cs' anc'
          else matchesAncestors cs anc'
      end
  end.

(** [e] with ancestors [anc] matches the complex selector [sel]. *)
Definition matchesSelector (sel : Selector) (anc : list Element) (e : Element)
  : bool :=
  match rev sel with
  | [] => false
  | c :: outer => matchesCompound c e && matchesAncestors outer anc
  end.

(** The elements of the tree in document (pre-)order, each paired with
    its ancestors, nearest first. *)
Fixpoint treeOrder (anc : list Element) (e : Element)
  : list (list Element * Element) :=
  (anc, e) ::
  (fix forest (ks : list Element) : list (list Element * Element) :=
     match ks with
     | [] => []
     | k :: ks' => treeOrder (e :: anc) k ++ forest ks'
     end) (children e).

(** [document.querySelector(sel)]: the first element in document order
    that matches, [None] standing for [null]. *)
Definition querySelector (sel : Selector) (document : Element) : option Element :=
  option_map snd
    (find (fun p => matchesSelector sel (fst p) (snd p)) (treeOrder [] document)).

(** Identities of all the elements currently in the document. *)
Definition elementIds (document : Element) : list nat :=
  map (fun p => eid (snd p)) (treeOrder [] document).

(** *** Event listeners

    The plugin registers one callback only ([this.handleDoubleClick],
    for ['dblclick'], default options), so an event-listener list is
    represented by the identities of the targets that carry it. *)

Definition Registry : Type := list nat.

Definition registered (target : nat) (r : Registry) : bool :=
  existsb (Nat.eqb target) r.

(** [target.addEventListener('dblclick', handleDoubleClick)]: appended
    unless the same listener is already in the target's list. *)
Definition addEventListener (target : nat) (r : Registry) : Registry :=
  if registered target r then r else r ++ [target].

(** [target.removeEventListener('dblclick', handleDoubleClick)]: the
    listener is taken out of the target's list; nothing happens when it
    is not there. *)
Fixpoint removeEventListener (target : nat) (r : Registry) : Registry :=
  match r with
  | [] => []
  | t :: r' => if Nat.eqb target t then r' else t :: removeEventListener target r'
  end.

(** Number of copies of the listener that [target] carries. *)
Definition listenerCount (target : nat) (r : Registry) : nat :=
  count_occ Nat.eq_dec r target.

End Dom.

(* ================================================================== *)
(** ** Host services: clipboard, notices, console, plugin data *)
(* ================================================================== *)

Module Host.

(** Outcome of a promise returned by the host. *)
Inductive Settled : Type :=
| Fulfilled
| Rejected (reason : string).

(** What an invocation does to the outside, in the order it happens. *)
Inductive Effect : Type :=
| WriteText (text : string)          (* navigator.clipboard.writeText(text) *)
| NoticeShown (message : string)     (* new Notice(message): a toast the user sees *)
| ConsoleLog (args : list string)    (* console.log(...args): developer console *)
| ConsoleError (args : list string)  (* console.error(...args) *)
| Uncaught (error : string).         (* exception or rejection nobody handles *)

(** The state the plugin runs in.  [settings_enableDoubleClick] is
    [this.settings.enableDoubleClick]; [dblclickListeners] holds the
    targets that carry [this.handleDoubleClick]; [observing] tells
    whether [this.observer] is connected. *)
Record World : Type := mkWorld {
  document : Dom.Element;
  clipboard : string;
  clipboardAccess : Settled;
  storedData : option bool;
  saveAccess : Settled;
  settings_enableDoubleClick : bool;
  dblclickListeners : Dom.Registry;
  observing : bool;
  effects : list Effect
}.

Definition setDocument (d : Dom.Element) (w : World) : World :=
  mkWorld d (clipboard w) (clipboardAccess w) (storedData w) (saveAccess w)
          (settings_enableDoubleClick w) (dblclickListeners w) (observing w)
          (effects w).

Definition setClipboard (c : string) (w : World) : World :=
  mkWorld (document w) c (clipboardAccess w) (storedData w) (saveAccess w)
          (settings_enableDoubleClick w) (dblclickListeners w) (observing w)
          (effects w).

Definition setClipboardAccess (a : Settled) (w : World) : World :=
  mkWorld (document w) (clipboard w) a (storedData w) (saveAccess w)
          (settings_enableDoubleClick w) (dblclickListeners w) (observing w)
          (effects w).

Definition setStoredData (d : option bool) (w : World) : World :=
  mkWorld (document w) (clipboard w) (clipboardAccess w) d (saveAccess w)
          (settings_enableDoubleClick w) (dblclickListeners w) (observing w)
          (effects w).

Definition setSaveAccess (a : Settled) (w : World) : World :=
  mkWorld (document w) (clipboard w) (clipboardAccess w) (storedData w) a
          (settings_enableDoubleClick w) (dblclickListeners w) (observing w)
          (effects w).

Definition setEnableDoubleClick (b : bool) (w : World) : World :=
  mkWorld (document w) (clipboard w) (clipboardAccess w) (storedData w)
          (saveAccess w) b (dblclickListeners w) (observing w) (effects w).

Definition setListeners (r : Dom.Registry) (w : World) : World :=
  mkWorld (document w) (clipboard w) (clipboardAccess w) (storedData w)
          (saveAccess w) (settings_enableDoubleClick w) r (observing w)
          (effects w).

Definition setObserving (b : bool) (w : World) : World :=
  mkWorld (document w) (clipboard w) (clipboardAccess w) (storedData w)
          (saveAccess w) (settings_enableDoubleClick w) (dblclickListeners w)
          b (effects w).

Definition emit (e : Effect) (w : World) : World :=
  mkWorld (document w) (clipboard w) (clipboardAccess w) (storedData w)
          (saveAccess w) (settings_enableDoubleClick w) (dblclickListeners w)
          (observing w) (effects w ++ [e]).

(** [new Notice(message)]. *)
Definition Notice (message : string) (w : World) : World :=
  emit (NoticeShown message) w.

(** [navigator.clipboard.writeText(text).then(onFulfilled, onRejected)]:
    the write is requested; when the host grants it the clipboard holds
    [text] and [onFulfilled] runs, otherwise the clipboard is untouched
    and [onRejected] runs with the reason.  The completion callback is
    run in the same step as the request. *)
Definition writeText (text : string)
    (onFulfilled : World -> World) (onRejected : string -> World -> World)
    (w : World) : World :=
  let w1 := emit (WriteText text) w in
  match clipboardAccess w1 with
  | Fulfilled => onFulfilled (setClipboard text w1)
  | Rejected reason => onRejected reason w1
  end.

(** Result of running a method: it returns, or it throws; either way
    with the state it has reached. *)
Inductive Completion (A : Type) : Type :=
| Normal (result : A)
| Throw (error : string) (reached : A).
Arguments Normal {A} result.
Arguments Throw {A} error reached.

(** The strings handed to [writeText] in a run of effects. *)
Fixpoint writes (es : list Effect) : list string :=
  match es with
  | [] => []
  | WriteText t :: es' => t :: writes es'
  | _ :: es' => writes es'
  end.

(** The messages shown to the user in a run of effects. *)
Fixpoint notices (es : list Effect) : list string :=
  match es with
  | [] => []
  | NoticeShown m :: es' => m :: notices es'
  | _ :: es' => notices es'
  end.

End Host.

(* ================================================================== *)
(** ** The plugin *)
(* ================================================================== *)

Import Dom Host.

(** The two sources of the plugin in the repository. *)
Inductive SourceFile : Type :=
| part_000   (* src/unnamed/part_000: the annotated source, reports by Notice *)
| main_ts.   (* src/main.ts: reports on the console *)

(** ['.workspace-tab-header.tappable.is-active.mod-active'] *)
Definition activeTabSelector : Selector :=
  [ mkCompound None
      ["workspace-tab-header"; "tappable"; "is-active"; "mod-active"] ].

(** ['.workspace-tab-header.tappable.is-active.mod-active
      .workspace-tab-header-inner-title'] *)
Definition innerTitleSelector : Selector :=
  [ mkCompound None
      ["workspace-tab-header"; "tappable"; "is-active"; "mod-active"];
    mkCompound None ["workspace-tab-header-inner-title"] ].

(** ['.view-content.webviewer-content webview'] *)
Definition webviewSelector : Selector :=
  [ mkCompound None ["view-content"; "webviewer-content"];
    mkCompound (Some "webview") [] ].

(** [x === 'literal'] for [x : string | null]. *)
Definition strictEq (x : option string) (literal : string) : bool :=
  match x with
  | Some s => String.eqb s literal
  | None => false
  end.

(** A [string | null] value inside a template literal: [null] prints
    as the four letters [null]. *)
Definition interpolate (x : option string) : string :=
  match x with
  | Some s => s
  | None => "null"
  end.

(** [const tabLink = webviewContent ? webviewContent.getAttribute('src') : '';] *)
Definition tabLinkOf (webviewContent : option Element) : option string :=
  match webviewContent with
  | Some wv => getAttribute "src" wv
  | None => Some ""
  end.

(** [`[${tabTitle}](${tabLink})`] *)
Definition markdownLinkOf (tabTitle : string) (tabLink : option string) : string :=
  "[" ++ tabTitle ++ "](" ++ interpolate tabLink ++ ")".

(** [`[[${tabTitle}]]`] *)
Definition wikiLinkOf (tabTitle : string) : string :=
  "[[" ++ tabTitle ++ "]]".

Definition nullInnerText : string :=
  "TypeError: Cannot read properties of null (reading 'innerText')".

Module Part000.

(** [copyLink()] of src/unnamed/part_000. *)
Definition copyLink (w : World) : Completion World :=
  match querySelector activeTabSelector (document w) with
  | Some activeTab =>
      match querySelector innerTitleSelector (document w) with
      | None => Throw nullInnerText w
      | Some titleEl =>
          let tabTitle := innerText titleEl in
          let dataType := getAttribute "data-type" activeTab in
          if strictEq dataType "webviewer" then
            let webviewContent := querySelector webviewSelector (document w) in
            let tabLink := tabLinkOf webviewContent in
            let markdownLink := markdownLinkOf tabTitle tabLink in
            Normal
              (writeText markdownLink
                 (Notice ("已复制 Markdown 链接: " ++ markdownLink))
                 (fun _ => Notice "复制失败，请重试")
                 w)
          else if strictEq dataType "markdown" then
            let wikiLink := wikiLinkOf tabTitle in
            Normal
              (writeText wikiLink
                 (Notice ("已复制 Wiki 链接: " ++ wikiLink))
                 (fun _ => Notice "复制失败，请重试")
                 w)
          else Normal w
      end
  | None => Normal (Notice "未找到激活的标签页" w)
  end.

End Part000.

Module MainTs.

(** [copyLink()] of src/main.ts. *)
Definition copyLink (w : World) : Completion World :=
  match querySelector activeTabSelector (document w) with
  | Some activeTab =>
      let tabTitle := innerText activeTab in
      let dataType := getAttribute "data-type" activeTab in
      if strictEq dataType "webviewer" then
        let webviewContent := querySelector webviewSelector (document w) in
        let tabLink := tabLinkOf webviewContent in
        let markdownLink := markdownLinkOf tabTitle tabLink in
        let w1 := emit (ConsoleLog ["Markdown link:"; markdownLink]) w in
        Normal
          (writeText markdownLink
             (emit (ConsoleLog ["Copied to clipboard:"; markdownLink]))
             (fun err => emit (ConsoleError ["Failed to copy to clipboard:"; err]))
             w1)
      else if strictEq dataType "markdown" then
        let wikiLink := wikiLinkOf tabTitle in
        let w1 := emit (ConsoleLog ["Wiki link:"; wikiLink]) w in
        Normal
          (writeText wikiLink
             (emit (ConsoleLog ["Copied to clipboard:"; wikiLink]))
             (fun err => emit (ConsoleError ["Failed to copy to clipboard:"; err]))
             w1)
      else Normal w
  | None => Normal (emit (ConsoleLog ["No active tab found."]) w)
  end.

End MainTs.

Definition copyLink (src : SourceFile) : World -> Completion World :=
  match src with
  | part_000 => Part000.copyLink
  | main_ts => MainTs.copyLink
  end.

(** A callback run by the event loop: an exception (or the rejection
    of an async callback) that escapes it is reported, nothing more. *)
Definition runCallback (f : World -> Completion World) (w : World) : World :=
  match f w with
  | Normal w' => w'
  | Throw error w' => emit (Uncaught error) w'
  end.

(** [removeDoubleClickListener()] (the same text in both sources). *)
Definition removeDoubleClickListener (w : World) : World :=
  match querySelector activeTabSelector (document w) with
  | Some activeTab =>
      setListeners (removeEventListener (eid activeTab) (dblclickListeners w)) w
  | None => w
  end.

(** [addDoubleClickListener()] (the same text in both sources). *)
Definition addDoubleClickListener (w : World) : World :=
  let w1 := removeDoubleClickListener w in
  match querySelector activeTabSelector (document w1) with
  | Some activeTab =>
      setListeners (addEventListener (eid activeTab) (dblclickListeners w1)) w1
  | None => w1
  end.

(** [handleDoubleClick = () => { this.copyLink(); }] *)
Definition handleDoubleClick (src : SourceFile) (w : World) : Completion World :=
  copyLink src w.

(** [DEFAULT_SETTINGS] *)
Definition DEFAULT_SETTINGS : bool := true.

(** [loadSettings()]:
    [Object.assign({}, DEFAULT_SETTINGS, await this.loadData())]. *)
Definition loadSettings (w : World) : World :=
  setEnableDoubleClick
    (match storedData w with
     | Some b => b
     | None => DEFAULT_SETTINGS
     end) w.

(** [saveSettings()]: [await this.saveData(this.settings)]. *)
Definition saveSettings (w : World) : Completion World :=
  match saveAccess w with
  | Fulfilled => Normal (setStoredData (Some (settings_enableDoubleClick w)) w)
  | Rejected reason => Throw reason w
  end.

(** The callback handed to [new MutationObserver(...)] in [onload]. *)
Definition observerCallback (w : World) : World :=
  if settings_enableDoubleClick w then addDoubleClickListener w
  else removeDoubleClickListener w.

(** [onload()]. *)
Definition onload (src : SourceFile) (w : World) : World :=
  let w0 :=
    match src with
    | part_000 => w
    | main_ts => emit (ConsoleLog ["Loading TabCopyPlugin..."]) w
    end in
  let w1 := loadSettings w0 in
  let w2 := if settings_enableDoubleClick w1 then addDoubleClickListener w1
            else w1 in
  setObserving true w2.

(** [onunload()]. *)
Definition onunload (src : SourceFile) (w : World) : World :=
  let w0 :=
    match src with
    | part_000 => w
    | main_ts => emit (ConsoleLog ["Unloading TabCopyPlugin..."]) w
    end in
  setObserving false (removeDoubleClickListener w0).

(** The [onChange] callback of the toggle in [TabCopySettingTab.display]. *)
Definition onChange (value : bool) (w : World) : Completion World :=
  let w1 := setEnableDoubleClick value w in
  match saveSettings w1 with
  | Normal w2 =>
      Normal (if value then addDoubleClickListener w2
              else removeDoubleClickListener w2)
  | Throw error w2 => Throw error w2
  end.

(** *** The events the plugin reacts to

    Everything runs on the UI thread, one callback at a time.  The
    completion of a clipboard write and of a settings save is taken
    within the step that asked for it. *)

(** Two trees that differ in attributes, classes and rendered text
    only: the same nodes in the same places. *)
Fixpoint sameSkeleton (a b : Element) : bool :=
  Nat.eqb (eid a) (eid b) && String.eqb (localName a) (localName b) &&
  (fix all2 (ks ls : list Element) : bool :=
     match ks, ls with
     | [], [] => true
     | k :: ks', l :: ls' => sameSkeleton k l && all2 ks' ls'
     | _, _ => false
     end) (children a) (children b).

Inductive Event : Type :=
| ChildListMutation (document' : Element)
    (* the host adds or removes nodes under [document.body]; the UI is
       now [document'] and the observer, registered with
       [{ childList: true, subtree: true }], is notified *)
| AttributeMutation (document' : Element)
    (* the host changes classes, attributes or text of existing nodes
       only; the observer does not watch those *)
| ToggleSetting (value : bool)
    (* the user flips the toggle of the settings tab *)
| DoubleClick (target : nat)
    (* a ['dblclick'] event reaches the element [target] of the
       document, directly or by bubbling up from a descendant; the
       listeners of [target] alone are run *)
| CopyLinkCommand
    (* the command ['copy-link'] is invoked *)
| ClipboardAccessChange (access : Settled)
| SaveAccessChange (access : Settled).

Fixpoint times (n : nat) (f : World -> World) (w : World) : World :=
  match n with
  | O => w
  | S n' => times n' f (f w)
  end.

Definition step (src : SourceFile) (ev : Event) (w : World) : World :=
  match ev with
  | ChildListMutation d =>
      let w1 := setDocument d w in
      if observing w1 then observerCallback w1 else w1
  | AttributeMutation d =>
      if sameSkeleton (document w) d then setDocument d w else w
  | ToggleSetting value => runCallback (onChange value) w
  | DoubleClick target =>
      if existsb (Nat.eqb target) (elementIds (document w)) then
        times (listenerCount target (dblclickListeners w))
              (runCallback (handleDoubleClick src)) w
      else w
  | CopyLinkCommand => runCallback (copyLink src) w
  | ClipboardAccessChange a => setClipboardAccess a w
  | SaveAccessChange a => setSaveAccess a w
  end.

Fixpoint run (src : SourceFile) (evs : list Event) (w : World) : World :=
  match evs with
  | [] => w
  | ev :: evs' => run src evs' (step src ev w)
  end.

(** The effects of an invocation: what it added to the log. *)
Definition newEffects (before after : World) : list Effect :=
  skipn (length (effects before)) (effects after).

Definition completionWorld (c : Completion World) : World :=
  match c with
  | Normal w => w
  | Throw _ w => w
  end.

Definition throws (c : Completion World) : bool :=
  match c with
  | Normal _ => false
  | Throw _ _ => true
  end.

(** *** A sample workspace *)

Definition tabHeader (id : nat) (active : bool) (dataType title : string) : Element :=
  Node id "div"
    (["workspace-tab-header"; "tappable"] ++
     if active then ["is-active"; "mod-active"] else [])
    [("draggable", "true"); ("aria-label", title); ("data-type", dataType)]
    title
    [ Node (id + 1) "div" ["workspace-tab-header-inner"] [] title
        [ Node (id + 2) "div" ["workspace-tab-header-inner-icon"] [] "" [];
          Node (id + 3) "div" ["workspace-tab-header-inner-title"] [] title [];
          Node (id + 4) "div" ["workspace-tab-header-inner-close-button"] [] "" [] ] ].

Definition webviewPane (id : nat) (src : option string) : Element :=
  Node id "div" ["workspace-leaf-content"] [("data-type", "webviewer")] ""
    [ Node (id + 1) "div" ["view-content"; "webviewer-content"] [] ""
        [ Node (id + 2) "webview" []
            (match src with Some u => [("src", u)] | None => [] end) "" [] ] ].

Definition body (kids : list Element) : Element :=
  Node 0 "body" [] [] "" kids.

Definition sampleWorld (d : Element) : World :=
  mkWorld d "" Fulfilled None Fulfilled false [] false [].

(** Workspaces used as examples: a note tab in front, a web tab in
    front, a web tab whose pane holds no [webview], no tab in front, a
    tab of another kind in front, and an active header that has no
    title element under it. *)
Definition notesHeader : Element := tabHeader 10 true "markdown" "Project Notes".
Definition docsHeader : Element := tabHeader 20 true "webviewer" "Docs".

Definition notesActive : Element :=
  body [ notesHeader;
         tabHeader 20 false "webviewer" "Docs";
         webviewPane 30 (Some "https://example.com") ].

Definition docsActive : Element :=
  body [ tabHeader 10 false "markdown" "Project Notes";
         docsHeader;
         webviewPane 30 (Some "https://example.com") ].

Definition docsActiveNoWebview : Element :=
  body [ tabHeader 10 false "markdown" "Project Notes"; docsHeader ].

Definition noActiveTab : Element :=
  body [ tabHeader 10 false "markdown" "Project Notes";
         tabHeader 20 false "webviewer" "Docs" ].

Definition graphHeader : Element := tabHeader 40 true "graph" "Graph view".
Definition graphActive : Element :=
  body [ tabHeader 10 false "markdown" "Project Notes"; graphHeader ].

Definition bareHeader : Element :=
  Node 10 "div" ["workspace-tab-header"; "tappable"; "is-active"; "mod-active"]
    [("data-type", "markdown")] "Project Notes" [].
Definition bareActive : Element := body [ bareHeader ].

(** Events after which the listeners are brought in line with the
    setting: every event but a change of classes or attributes alone
    (which the observer does not see) and the loss of the ability to
    save the settings (after which the toggle's callback stops at the
    [await]). *)
Definition reconciled (ev : Event) : bool :=
  match ev with
  | AttributeMutation _ => false
  | SaveAccessChange (Rejected _) => false
  | _ => true
  end.

(** The state of the listeners that the reconciliations maintain: no
    duplicates, and with the setting off no listener on the active header. *)
Definition disabledClean (w : World) : Prop :=
  observing w = true /\
  saveAccess w = Fulfilled /\
  NoDup (dblclickListeners w) /\
  (settings_enableDoubleClick w = false ->
   forall a, querySelector activeTabSelector (document w) = Some a ->
             listenerCount (eid a) (dblclickListeners w) = 0).

(** The title the source takes for the active tab: part_000 reads the
    text of the first element matching the inner-title selector,
    main.ts the text of the active header itself. *)
Definition tabTitle (src : SourceFile) (document : Element) (activeTab : Element)
  : option string :=
  match src with
  | part_000 => option_map innerText (querySelector innerTitleSelector document)
  | main_ts => Some (innerText activeTab)
  end.

(** The link that the UI state determines, following the steps of the
    specification (locate, classify, render); [None] when no link is
    produced. *)
Definition resolveLink (src : SourceFile) (document : Element) : option string :=
  match querySelector activeTabSelector document with
  | None => None
  | Some activeTab =>
      match tabTitle src document activeTab with
      | None => None
      | Some T =>
          if strictEq (getAttribute "data-type" activeTab) "webviewer" then
            Some (markdownLinkOf T
                    (tabLinkOf (querySelector webviewSelector document)))
          else if strictEq (getAttribute "data-type" activeTab) "markdown" then
            Some (wikiLinkOf T)
          else None
      end
  end.

(** What one invocation of [copyLink] from [w] does to the outside. *)
Definition copyLinkEffects (src : SourceFile) (w : World) : list Effect :=
  newEffects w (completionWorld (copyLink src w)).

(** Events that leave the settings store writable. *)
Definition savesSucceed (ev : Event) : bool :=
  match ev with
  | SaveAccessChange (Rejected _) => false
  | _ => true
  end.

(** The setting in memory is the one a reload would read back. *)
Definition settingsPersisted (w : World) : Prop :=
  saveAccess w = Fulfilled /\
  settings_enableDoubleClick w =
    match storedData w with
    | Some b => b
    | None => DEFAULT_SETTINGS
    end.


(** Effects that reach the developer console only. *)
Definition onConsole (e : Effect) : bool :=
  match e with
  | ConsoleLog _ | ConsoleError _ | Uncaught _ => true
  | WriteText _ | NoticeShown _ => false
  end.

(** A web tab in front whose [webview] has no [src] attribute. *)
Definition docsActiveNoSrc : Element :=
  body [ docsHeader; webviewPane 30 None ].

(** *** Bubbling of a double-click

    The path of an event whose target is [target]: the target, then
    its ancestors from the nearest up to the root; empty when the
    target is not in the document. *)
Definition propagationPath (target : nat) (document : Element) : list Element :=
  match find (fun p => Nat.eqb (eid (snd p)) target) (treeOrder [] document) with
  | Some (anc, e) => e :: anc
  | None => []
  end.

(** The listeners of the elements of [path] are run, element after
    element. *)
Fixpoint bubble (src : SourceFile) (path : list Element) (w : World) : World :=
  match path with
  | [] => w
  | p :: path' =>
      bubble src path'
        (times (listenerCount (eid p) (dblclickListeners w))
               (runCallback (handleDoubleClick src)) w)
  end.

(** One ['dblclick'] event dispatched at [target].  The plugin
    registers its listener with the default options and never stops
    propagation, so the event runs the listeners of the target and
    then those of each ancestor on the way up. *)
Definition dispatchDblclick (src : SourceFile) (target : nat) (w : World) : World :=
  bubble src (propagationPath target (document w)) w.

(** The elements of a path that carry the listener. *)
Definition listening (w : World) (path : list Element) : list Element :=
  filter (fun p => registered (eid p) (dblclickListeners w)) path.

(** A tab header that holds another tab header, first with the outer
    one in front, then with the inner one in front. *)
Definition nestedHeaders (outerActive innerActive : bool) : Element :=
  body
    [ Node 50 "div"
        (["workspace-tab-header"; "tappable"] ++
         if outerActive then ["is-active"; "mod-active"] else [])
        [("data-type", "markdown")] "Outer"
        [ Node 60 "div"
            (["workspace-tab-header"; "tappable"] ++
             if innerActive then ["is-active"; "mod-active"] else [])
            [("data-type", "markdown")] "Inner"
            [ Node 61 "div" ["workspace-tab-header-inner-title"] [] "Inner" [] ] ] ].

(* ================================================================== *)
(** ** Basic facts *)
(* ================================================================== *)

Lemma skipn_length_app {A : Type} (l l' : list A) :
  skipn (length l) (l ++ l') = l'.
Proof.
  induction l as [| x l IH]; simpl; auto.
Qed.

Lemma newEffects_refl (w : World) : newEffects w w = [].
Proof.
  unfold newEffects.
  rewrite <- (app_nil_r (effects w)) at 2.
  apply skipn_length_app.
Qed.

Lemma newEffects_extend (w w' : World) (es : list Effect) :
  effects w' = effects w ++ es -> newEffects w w' = es.
Proof.
  intros H. unfold newEffects. rewrite H. apply skipn_length_app.
Qed.

Lemma strictEq_true (x : option string) (s : string) :
  strictEq x s = true <-> x = Some s.
Proof.
  destruct x as [y |]; simpl.
  - rewrite String.eqb_eq. split; [intros -> | intros [= ->]]; reflexivity.
  - split; discriminate.
Qed.

Lemma strictEq_false (x : option string) (s : string) :
  strictEq x s = false <-> x <> Some s.
Proof.
  rewrite <- (strictEq_true x s).
  destruct (strictEq x s); split; congruence.
Qed.

Lemma newEffects_emit (e : Effect) (w : World) : newEffects w (emit e w) = [e].
Proof. apply newEffects_extend. reflexivity. Qed.

(** Shape of a run of [copyLink] on a web tab and on a note tab. *)
Lemma copyLink_web (src : SourceFile) (w : World) (activeTab : Element) (T : string) :
  querySelector activeTabSelector (document w) = Some activeTab ->
  getAttribute "data-type" activeTab = Some "webviewer" ->
  tabTitle src (document w) activeTab = Some T ->
  let link := markdownLinkOf T
                (tabLinkOf (querySelector webviewSelector (document w))) in
  throws (copyLink src w) = false /\
  copyLinkEffects src w =
    match src, clipboardAccess w with
    | part_000, Fulfilled =>
        [WriteText link; NoticeShown ("已复制 Markdown 链接: " ++ link)]
    | part_000, Rejected _ =>
        [WriteText link; NoticeShown "复制失败，请重试"]
    | main_ts, Fulfilled =>
        [ConsoleLog ["Markdown link:"; link]; WriteText link;
         ConsoleLog ["Copied to clipboard:"; link]]
    | main_ts, Rejected r =>
        [ConsoleLog ["Markdown link:"; link]; WriteText link;
         ConsoleError ["Failed to copy to clipboard:"; r]]
    end /\
  clipboard (completionWorld (copyLink src w)) =
    match clipboardAccess w with
    | Fulfilled => link
    | Rejected _ => clipboard w
    end.
Proof.
  intros Ha Ht HT link.
  unfold copyLinkEffects.
  destruct src; simpl in HT |- *.
  - unfold Part000.copyLink. rewrite Ha.
    destruct (querySelector innerTitleSelector (document w)) as [titleEl |];
      [| discriminate].
    simpl in HT. injection HT as HT. rewrite HT, Ht. simpl.
    fold link. unfold writeText. simpl.
    destruct (clipboardAccess w); simpl;
      (split; [reflexivity | split; [| reflexivity]]);
      apply newEffects_extend; simpl; now rewrite <- app_assoc.
  - unfold MainTs.copyLink. rewrite Ha.
    injection HT as HT. rewrite HT, Ht. simpl.
    fold link. unfold writeText. simpl.
    destruct (clipboardAccess w); simpl;
      (split; [reflexivity | split; [| reflexivity]]);
      apply newEffects_extend; simpl; now rewrite <- !app_assoc.
Qed.

Lemma copyLink_note (src : SourceFile) (w : World) (activeTab : Element) (T : string) :
  querySelector activeTabSelector (document w) = Some activeTab ->
  getAttribute "data-type" activeTab = Some "markdown" ->
  tabTitle src (document w) activeTab = Some T ->
  let link := wikiLinkOf T in
  throws (copyLink src w) = false /\
  copyLinkEffects src w =
    match src, clipboardAccess w with
    | part_000, Fulfilled =>
        [WriteText link; NoticeShown ("已复制 Wiki 链接: " ++ link)]
    | part_000, Rejected _ =>
        [WriteText link; NoticeShown "复制失败，请重试"]
    | main_ts, Fulfilled =>
        [ConsoleLog ["Wiki link:"; link]; WriteText link;
         ConsoleLog ["Copied to clipboard:"; link]]
    | main_ts, Rejected r =>
        [ConsoleLog ["Wiki link:"; link]; WriteText link;
         ConsoleError ["Failed to copy to clipboard:"; r]]
    end /\
  clipboard (completionWorld (copyLink src w)) =
    match clipboardAccess w with
    | Fulfilled => link
    | Rejected _ => clipboard w
    end.
Proof.
  intros Ha Ht HT link.
  unfold copyLinkEffects.
  destruct src; simpl in HT |- *.
  - unfold Part000.copyLink. rewrite Ha.
    destruct (querySelector innerTitleSelector (document w)) as [titleEl |];
      [| discriminate].
    simpl in HT. injection HT as HT. rewrite HT, Ht. simpl.
    fold link. unfold writeText. simpl.
    destruct (clipboardAccess w); simpl;
      (split; [reflexivity | split; [| reflexivity]]);
      apply newEffects_extend; simpl; now rewrite <- app_assoc.
  - unfold MainTs.copyLink. rewrite Ha.
    injection HT as HT. rewrite HT, Ht. simpl.
    fold link. unfold writeText. simpl.
    destruct (clipboardAccess w); simpl;
      (split; [reflexivity | split; [| reflexivity]]);
      apply newEffects_extend; simpl; now rewrite <- !app_assoc.
Qed.

Lemma copyLink_no_active (src : SourceFile) (w : World) :
  querySelector activeTabSelector (document w) = None ->
  copyLink src w =
  Normal (match src with
          | part_000 => Notice "未找到激活的标签页" w
          | main_ts => emit (ConsoleLog ["No active tab found."]) w
          end).
Proof.
  intros Ha. destruct src; simpl;
    [unfold Part000.copyLink | unfold MainTs.copyLink]; now rewrite Ha.
Qed.

Lemma copyLink_null_title (w : World) (activeTab : Element) :
  querySelector activeTabSelector (document w) = Some activeTab ->
  querySelector innerTitleSelector (document w) = None ->
  copyLink part_000 w = Throw nullInnerText w.
Proof.
  intros Ha Hn. simpl. unfold Part000.copyLink. now rewrite Ha, Hn.
Qed.

Lemma copyLink_other (src : SourceFile) (w : World) (activeTab : Element) (T : string) :
  querySelector activeTabSelector (document w) = Some activeTab ->
  tabTitle src (document w) activeTab = Some T ->
  getAttribute "data-type" activeTab <> Some "webviewer" ->
  getAttribute "data-type" activeTab <> Some "markdown" ->
  copyLink src w = Normal w.
Proof.
  intros Ha HT Hw Hm.
  apply strictEq_false in Hw. apply strictEq_false in Hm.
  destruct src; simpl in HT |- *.
  - unfold Part000.copyLink. rewrite Ha.
    destruct (querySelector innerTitleSelector (document w)); [| discriminate].
    now rewrite Hw, Hm.
  - unfold MainTs.copyLink. now rewrite Ha, Hw, Hm.
Qed.

(** [copyLink] writes the link that [resolveLink] computes from the
    document, once, and nothing when there is none. *)
Lemma copyLink_writes_resolved (src : SourceFile) (w : World) :
  writes (copyLinkEffects src w) =
  match resolveLink src (document w) with
  | Some link => [link]
  | None => []
  end.
Proof.
  unfold resolveLink.
  destruct (querySelector activeTabSelector (document w)) as [a |] eqn:Ha.
  - destruct (tabTitle src (document w) a) as [T |] eqn:HT.
    + destruct (strictEq (getAttribute "data-type" a) "webviewer") eqn:Hw.
      * apply strictEq_true in Hw.
        destruct (copyLink_web src w a T Ha Hw HT) as (_ & He & _).
        rewrite He. destruct src, (clipboardAccess w); reflexivity.
      * destruct (strictEq (getAttribute "data-type" a) "markdown") eqn:Hm.
        -- apply strictEq_true in Hm.
           destruct (copyLink_note src w a T Ha Hm HT) as (_ & He & _).
           rewrite He. destruct src, (clipboardAccess w); reflexivity.
        -- apply strictEq_false in Hw. apply strictEq_false in Hm.
           unfold copyLinkEffects.
           rewrite (copyLink_other src w a T Ha HT Hw Hm). simpl.
           now rewrite newEffects_refl.
    + destruct src; [| discriminate].
      simpl in HT.
      destruct (querySelector innerTitleSelector (document w)) eqn:Hn;
        [discriminate |].
      unfold copyLinkEffects. rewrite (copyLink_null_title w a Ha Hn). simpl.
      now rewrite newEffects_refl.
  - unfold copyLinkEffects. rewrite (copyLink_no_active src w Ha).
    destruct src; simpl; unfold Notice; now rewrite newEffects_emit.
Qed.

(** [copyLink] leaves the document, the settings and the listeners as
    they are. *)
Lemma copyLink_frame (src : SourceFile) (w : World) :
  let w' := completionWorld (copyLink src w) in
  document w' = document w /\
  settings_enableDoubleClick w' = settings_enableDoubleClick w /\
  dblclickListeners w' = dblclickListeners w /\
  observing w' = observing w /\
  saveAccess w' = saveAccess w /\
  clipboardAccess w' = clipboardAccess w /\
  storedData w' = storedData w.
Proof.
  destruct src; simpl;
    [unfold Part000.copyLink | unfold MainTs.copyLink]; unfold writeText; simpl;
    repeat match goal with
           | |- context [querySelector ?s ?d] => destruct (querySelector s d)
           | |- context [strictEq ?x ?l] => destruct (strictEq x l)
           end;
    simpl; try (destruct (clipboardAccess w) eqn:E; simpl; rewrite ?E);
    repeat split; reflexivity.
Qed.

(* ================================================================== *)
(** ** The link resolver: [copyLink] *)
(* ================================================================== *)

(** C1.  With a note tab in front (the active header carries
    [data-type="markdown"]) whose title is [T], [copyLink] returns
    normally, asks the clipboard for exactly one write, of the string
    "[[T]]", and when the write is granted the clipboard holds that
    string.  This holds for both sources; they differ in where the
    title is read ([tabTitle]). *)
Theorem C1_note_tab_copies_wiki_link :
  forall (src : SourceFile) (w : World) (activeTab : Element) (T : string),
    querySelector activeTabSelector (document w) = Some activeTab ->
    getAttribute "data-type" activeTab = Some "markdown" ->
    tabTitle src (document w) activeTab = Some T ->
    throws (copyLink src w) = false /\
    writes (copyLinkEffects src w) = [ ("[[" ++ T ++ "]]")%string ] /\
    (clipboardAccess w = Fulfilled ->
     clipboard (completionWorld (copyLink src w)) = ("[[" ++ T ++ "]]")%string).
Proof.
  intros src w activeTab T Ha Ht HT.
  destruct (copyLink_note src w activeTab T Ha Ht HT) as (Hn & He & Hc).
  split; [exact Hn |]. split.
  - rewrite He. destruct src, (clipboardAccess w); reflexivity.
  - intros Hok. rewrite Hc, Hok. reflexivity.
Qed.

Lemma C1_witness :
  querySelector activeTabSelector notesActive = Some notesHeader /\
  getAttribute "data-type" notesHeader = Some "markdown" /\
  tabTitle part_000 notesActive notesHeader = Some "Project Notes" /\
  writes (copyLinkEffects part_000 (sampleWorld notesActive))
    = [ "[[Project Notes]]" ] /\
  clipboard (completionWorld (copyLink part_000 (sampleWorld notesActive)))
    = "[[Project Notes]]".
Proof.
  split; [reflexivity |]. split; [reflexivity |]. split; [reflexivity |].
  pose proof (C1_note_tab_copies_wiki_link part_000 (sampleWorld notesActive)
                notesHeader "Project Notes" eq_refl eq_refl eq_refl)
    as (_ & Hw & Hc).
  split; [exact Hw | exact (Hc eq_refl)].
Defined.

(** C2.  With a web tab in front ([data-type="webviewer"]) whose title
    is [T]: when the first [webview] under a
    [.view-content.webviewer-content] element has the source address
    [A], exactly "[T](A)" is written; when no such element exists,
    exactly "[T]()" is written and nothing fails. *)
Theorem C2_web_tab_copies_markdown_link :
  forall (src : SourceFile) (w : World) (activeTab : Element) (T : string),
    querySelector activeTabSelector (document w) = Some activeTab ->
    getAttribute "data-type" activeTab = Some "webviewer" ->
    tabTitle src (document w) activeTab = Some T ->
    throws (copyLink src w) = false /\
    (forall (webview : Element) (A : string),
        querySelector webviewSelector (document w) = Some webview ->
        getAttribute "src" webview = Some A ->
        writes (copyLinkEffects src w) = [ ("[" ++ T ++ "](" ++ A ++ ")")%string ] /\
        (clipboardAccess w = Fulfilled ->
         clipboard (completionWorld (copyLink src w))
           = ("[" ++ T ++ "](" ++ A ++ ")")%string)) /\
    (querySelector webviewSelector (document w) = None ->
        writes (copyLinkEffects src w) = [ ("[" ++ T ++ "]()")%string ] /\
        (clipboardAccess w = Fulfilled ->
         clipboard (completionWorld (copyLink src w)) = ("[" ++ T ++ "]()")%string)).
Proof.
  intros src w activeTab T Ha Ht HT.
  destruct (copyLink_web src w activeTab T Ha Ht HT) as (Hn & He & Hc).
  split; [exact Hn |]. split.
  - intros webview A Hwv Hsrc. rewrite Hwv in He, Hc. simpl in He, Hc.
    rewrite Hsrc in He, Hc. split.
    + rewrite He. destruct src, (clipboardAccess w); reflexivity.
    + intros Hok. rewrite Hc, Hok. reflexivity.
  - intros Hwv. rewrite Hwv in He, Hc. split.
    + rewrite He. destruct src, (clipboardAccess w); reflexivity.
    + intros Hok. rewrite Hc, Hok. reflexivity.
Qed.

Lemma C2_witness :
  querySelector activeTabSelector docsActive = Some docsHeader /\
  getAttribute "data-type" docsHeader = Some "webviewer" /\
  tabTitle part_000 docsActive docsHeader = Some "Docs" /\
  writes (copyLinkEffects part_000 (sampleWorld docsActive))
    = [ "[Docs](https://example.com)" ] /\
  writes (copyLinkEffects main_ts (sampleWorld docsActiveNoWebview))
    = [ "[Docs]()" ].
Proof.
  split; [reflexivity |]. split; [reflexivity |]. split; [reflexivity |].
  split.
  - pose proof (C2_web_tab_copies_markdown_link part_000 (sampleWorld docsActive)
                  docsHeader "Docs" eq_refl eq_refl eq_refl) as (_ & Hsome & _).
    exact (proj1 (Hsome (Node 32 "webview" [] [("src", "https://example.com")] "" [])
                        "https://example.com" eq_refl eq_refl)).
  - pose proof (C2_web_tab_copies_markdown_link main_ts
                  (sampleWorld docsActiveNoWebview)
                  docsHeader "Docs" eq_refl eq_refl eq_refl) as (_ & _ & Hnone).
    exact (proj1 (Hnone eq_refl)).
Defined.

(** X4.  Outside the two cases above: a [webview] that is found but carries
    no [src] attribute makes [getAttribute] return [null], which the
    template literal prints as the word null. *)
Lemma web_tab_webview_without_src :
  forall (src : SourceFile) (w : World) (activeTab webview : Element) (T : string),
    querySelector activeTabSelector (document w) = Some activeTab ->
    getAttribute "data-type" activeTab = Some "webviewer" ->
    tabTitle src (document w) activeTab = Some T ->
    querySelector webviewSelector (document w) = Some webview ->
    getAttribute "src" webview = None ->
    writes (copyLinkEffects src w) = [ ("[" ++ T ++ "](null)")%string ].
Proof.
  intros src w activeTab webview T Ha Ht HT Hwv Hsrc.
  destruct (copyLink_web src w activeTab T Ha Ht HT) as (_ & He & _).
  rewrite Hwv in He. simpl in He. rewrite Hsrc in He.
  rewrite He. destruct src, (clipboardAccess w); reflexivity.
Qed.

(** C3, as amended.  When no element matches the active-tab selector,
    [copyLink] returns without asking for any clipboard write and
    leaves the clipboard alone; src/unnamed/part_000 then shows the
    notice for "no active tab found", while src/main.ts only logs
    "No active tab found." on the developer console. *)
Theorem C3_no_active_tab_amended :
  forall (src : SourceFile) (w : World),
    querySelector activeTabSelector (document w) = None ->
    throws (copyLink src w) = false /\
    writes (copyLinkEffects src w) = [] /\
    clipboard (completionWorld (copyLink src w)) = clipboard w /\
    copyLinkEffects src w =
      match src with
      | part_000 => [NoticeShown "未找到激活的标签页"]
      | main_ts => [ConsoleLog ["No active tab found."]]
      end.
Proof.
  intros src w Ha. unfold copyLinkEffects.
  rewrite (copyLink_no_active src w Ha).
  destruct src; simpl; unfold Notice; rewrite newEffects_emit;
    repeat split; reflexivity.
Qed.

Lemma C3_witness :
  querySelector activeTabSelector noActiveTab = None /\
  copyLinkEffects part_000 (sampleWorld noActiveTab)
    = [NoticeShown "未找到激活的标签页"].
Proof.
  split; [reflexivity |].
  exact (proj2 (proj2 (proj2
    (C3_no_active_tab_amended part_000 (sampleWorld noActiveTab) eq_refl)))).
Defined.

(** In src/main.ts no user-visible notice is emitted when there is no
    active tab: the message goes to the console. *)
Lemma C3_counterexample :
  querySelector activeTabSelector noActiveTab = None /\
  copyLinkEffects main_ts (sampleWorld noActiveTab)
    = [ConsoleLog ["No active tab found."]] /\
  notices (copyLinkEffects main_ts (sampleWorld noActiveTab)) = [].
Proof. repeat split; reflexivity. Qed.

(** C4, as amended.  Whenever [copyLink] asks for a clipboard write, it
    asks for one write only, and the completion is reported as follows.
    src/unnamed/part_000: a granted write is followed by a notice that
    ends with the copied string, a refused write by the failure notice.
    src/main.ts: nothing is shown to the user; a granted write is
    followed by a [console.log] of the copied string, a refused one by
    a [console.error] with the reason. *)
Theorem C4_write_outcome_reported_amended :
  forall (src : SourceFile) (w : World) (link : string),
    In link (writes (copyLinkEffects src w)) ->
    writes (copyLinkEffects src w) = [link] /\
    match src, clipboardAccess w with
    | part_000, Fulfilled =>
        notices (copyLinkEffects src w) = [ ("已复制 Markdown 链接: " ++ link)%string ] \/
        notices (copyLinkEffects src w) = [ ("已复制 Wiki 链接: " ++ link)%string ]
    | part_000, Rejected _ =>
        notices (copyLinkEffects src w) = [ "复制失败，请重试" ]
    | main_ts, Fulfilled =>
        notices (copyLinkEffects src w) = [] /\
        In (ConsoleLog ["Copied to clipboard:"; link]) (copyLinkEffects src w)
    | main_ts, Rejected reason =>
        notices (copyLinkEffects src w) = [] /\
        In (ConsoleError ["Failed to copy to clipboard:"; reason])
           (copyLinkEffects src w)
    end.
Proof.
  intros src w link Hin.
  pose proof (copyLink_writes_resolved src w) as Hw.
  unfold resolveLink in Hw.
  destruct (querySelector activeTabSelector (document w)) as [a |] eqn:Ha;
    [| rewrite Hw in Hin; contradiction].
  destruct (tabTitle src (document w) a) as [T |] eqn:HT;
    [| rewrite Hw in Hin; contradiction].
  destruct (strictEq (getAttribute "data-type" a) "webviewer") eqn:Hweb.
  - rewrite Hw in Hin. destruct Hin as [<- | []].
    split; [exact Hw |].
    apply strictEq_true in Hweb.
    destruct (copyLink_web src w a T Ha Hweb HT) as (_ & He & _).
    rewrite He.
    destruct src, (clipboardAccess w); simpl; auto.
  - destruct (strictEq (getAttribute "data-type" a) "markdown") eqn:Hmd;
      [| rewrite Hw in Hin; contradiction].
    rewrite Hw in Hin. destruct Hin as [<- | []].
    split; [exact Hw |].
    apply strictEq_true in Hmd.
    destruct (copyLink_note src w a T Ha Hmd HT) as (_ & He & _).
    rewrite He.
    destruct src, (clipboardAccess w); simpl; auto.
Qed.

Lemma C4_witness :
  In "[[Project Notes]]" (writes (copyLinkEffects part_000 (sampleWorld notesActive))) /\
  notices (copyLinkEffects part_000 (sampleWorld notesActive))
    = [ "已复制 Wiki 链接: [[Project Notes]]" ] /\
  notices (copyLinkEffects part_000
             (setClipboardAccess (Rejected "NotAllowedError") (sampleWorld docsActive)))
    = [ "复制失败，请重试" ].
Proof.
  split; [left; reflexivity |]. split.
  - destruct (C4_write_outcome_reported_amended part_000 (sampleWorld notesActive)
                "[[Project Notes]]" (or_introl eq_refl)) as (_ & [H | H]).
    + discriminate H.
    + exact H.
  - exact (proj2 (C4_write_outcome_reported_amended part_000
                    (setClipboardAccess (Rejected "NotAllowedError")
                                        (sampleWorld docsActive))
                    "[Docs](https://example.com)" (or_introl eq_refl))).
Defined.

(** In src/main.ts a clipboard write is performed and no notification
    is shown, neither when the write is granted nor when it is refused. *)
Lemma C4_counterexample :
  writes (copyLinkEffects main_ts (sampleWorld notesActive))
    = [ "[[Project Notes]]" ] /\
  notices (copyLinkEffects main_ts (sampleWorld notesActive)) = [] /\
  writes (copyLinkEffects main_ts
            (setClipboardAccess (Rejected "NotAllowedError") (sampleWorld notesActive)))
    = [ "[[Project Notes]]" ] /\
  notices (copyLinkEffects main_ts
             (setClipboardAccess (Rejected "NotAllowedError") (sampleWorld notesActive)))
    = [].
Proof. repeat split; reflexivity. Qed.

(** C5.  With an active tab whose [data-type] is neither "webviewer"
    nor "markdown" (an absent attribute included), [copyLink] resolves
    no link and has no effect at all: no clipboard write, no notice,
    nothing on the console, and the state is left as it was.  It
    returns normally whenever the title lookup succeeds. *)
Theorem C5_unrecognized_kind_is_silent :
  forall (src : SourceFile) (w : World) (activeTab : Element),
    querySelector activeTabSelector (document w) = Some activeTab ->
    getAttribute "data-type" activeTab <> Some "webviewer" ->
    getAttribute "data-type" activeTab <> Some "markdown" ->
    resolveLink src (document w) = None /\
    copyLinkEffects src w = [] /\
    completionWorld (copyLink src w) = w /\
    (tabTitle src (document w) activeTab <> None -> copyLink src w = Normal w).
Proof.
  intros src w a Ha Hweb Hmd.
  assert (Hres : resolveLink src (document w) = None).
  { unfold resolveLink. rewrite Ha.
    apply strictEq_false in Hweb. apply strictEq_false in Hmd.
    rewrite Hweb, Hmd. now destruct (tabTitle src (document w) a). }
  split; [exact Hres |].
  destruct (tabTitle src (document w) a) as [T |] eqn:HT.
  - pose proof (copyLink_other src w a T Ha HT Hweb Hmd) as Hc.
    unfold copyLinkEffects. rewrite Hc. simpl.
    rewrite newEffects_refl. auto.
  - destruct src; [| discriminate]. simpl in HT.
    destruct (querySelector innerTitleSelector (document w)) eqn:Hn;
      [discriminate |].
    unfold copyLinkEffects. rewrite (copyLink_null_title w a Ha Hn). simpl.
    rewrite newEffects_refl. repeat split; congruence.
Qed.

Lemma C5_witness :
  querySelector activeTabSelector graphActive = Some graphHeader /\
  getAttribute "data-type" graphHeader <> Some "webviewer" /\
  getAttribute "data-type" graphHeader <> Some "markdown" /\
  copyLinkEffects part_000 (sampleWorld graphActive) = [] /\
  copyLinkEffects main_ts (sampleWorld graphActive) = [].
Proof.
  split; [reflexivity |]. split; [discriminate |]. split; [discriminate |].
  split.
  - apply (C5_unrecognized_kind_is_silent part_000 (sampleWorld graphActive)
             graphHeader); [reflexivity | discriminate | discriminate].
  - apply (C5_unrecognized_kind_is_silent main_ts (sampleWorld graphActive)
             graphHeader); [reflexivity | discriminate | discriminate].
Defined.

(** C9.  The link string that [copyLink] writes is a function of the
    document alone: two invocations from states with the same document
    write the same strings, whatever the clipboard, the settings, the
    listeners or the log hold; and [copyLink] itself does not change
    the document, so calling it twice in succession writes the same
    string both times. *)
Theorem C9_copyLink_deterministic :
  forall (src : SourceFile) (w1 w2 : World),
    document w1 = document w2 ->
    writes (copyLinkEffects src w1) = writes (copyLinkEffects src w2) /\
    document (completionWorld (copyLink src w1)) = document w1.
Proof.
  intros src w1 w2 Hd. split.
  - rewrite !copyLink_writes_resolved. now rewrite Hd.
  - apply copyLink_frame.
Qed.

Lemma C9_witness :
  let w1 := sampleWorld docsActive in
  let w2 := completionWorld (copyLink part_000 w1) in
  document w2 = document w1 /\
  w2 <> w1 /\
  writes (copyLinkEffects part_000 w2) = writes (copyLinkEffects part_000 w1).
Proof.
  intros w1 w2.
  split; [reflexivity |]. split; [discriminate |].
  symmetry.
  exact (proj1 (C9_copyLink_deterministic part_000 w1 w2 eq_refl)).
Defined.

(** C10.  In src/unnamed/part_000, when an element matches the
    active-tab selector and none matches the inner-title selector,
    [copyLink] throws on reading [innerText] of [null], before any
    clipboard write, notice or other effect; invoked through the
    command it ends as an uncaught [TypeError]. *)
Theorem C10_missing_title_throws :
  forall (w : World) (activeTab : Element),
    querySelector activeTabSelector (document w) = Some activeTab ->
    querySelector innerTitleSelector (document w) = None ->
    copyLink part_000 w = Throw nullInnerText w /\
    copyLinkEffects part_000 w = [] /\
    step part_000 CopyLinkCommand w = emit (Uncaught nullInnerText) w.
Proof.
  intros w a Ha Hn.
  pose proof (copyLink_null_title w a Ha Hn) as Hc.
  split; [exact Hc |]. split.
  - unfold copyLinkEffects. rewrite Hc. apply newEffects_refl.
  - simpl. unfold runCallback. simpl in Hc. now rewrite Hc.
Qed.

Lemma C10_witness :
  querySelector activeTabSelector bareActive = Some bareHeader /\
  querySelector innerTitleSelector bareActive = None /\
  effects (step part_000 CopyLinkCommand (sampleWorld bareActive))
    = [Uncaught nullInnerText].
Proof.
  split; [reflexivity |]. split; [reflexivity |].
  rewrite (proj2 (proj2 (C10_missing_title_throws (sampleWorld bareActive)
                           bareHeader eq_refl eq_refl))).
  reflexivity.
Defined.

(** src/main.ts reads the title from the active header itself and
    never throws. *)
Lemma main_ts_never_throws (w : World) : throws (copyLink main_ts w) = false.
Proof.
  simpl. unfold MainTs.copyLink.
  destruct (querySelector activeTabSelector (document w)); [| reflexivity].
  destruct (strictEq _ "webviewer"); [reflexivity |].
  destruct (strictEq _ "markdown"); reflexivity.
Qed.

(* ================================================================== *)
(** ** The double-click trigger manager *)
(* ================================================================== *)

Section Registry.

Implicit Types (t x : nat) (r : Registry).

Lemma registered_In t r : registered t r = true <-> In t r.
Proof.
  unfold registered. rewrite existsb_exists. split.
  - intros (y & Hy & E). apply Nat.eqb_eq in E. now subst.
  - intros H. exists t. split; [exact H | apply Nat.eqb_refl].
Qed.

Lemma removeEventListener_In x t r :
  In x (removeEventListener t r) -> In x r.
Proof.
  induction r as [| y r IH]; simpl; [tauto |].
  destruct (Nat.eqb t y); simpl; tauto.
Qed.

Lemma removeEventListener_NoDup t r :
  NoDup r -> NoDup (removeEventListener t r).
Proof.
  induction 1 as [| y r Hy Hr IH]; simpl; [constructor |].
  destruct (Nat.eqb t y); [exact Hr |].
  constructor; [| exact IH].
  intros H. apply Hy. eapply removeEventListener_In, H.
Qed.

Lemma removeEventListener_gone t r :
  NoDup r -> ~ In t (removeEventListener t r).
Proof.
  induction 1 as [| y r Hy Hr IH]; simpl; [tauto |].
  destruct (Nat.eqb t y) eqn:E.
  - apply Nat.eqb_eq in E. now subst.
  - apply Nat.eqb_neq in E. simpl. intros [H | H]; [congruence | tauto].
Qed.

Lemma removeEventListener_absent t r :
  ~ In t r -> removeEventListener t r = r.
Proof.
  induction r as [| y r IH]; simpl; [reflexivity |].
  intros H. destruct (Nat.eqb t y) eqn:E.
  - apply Nat.eqb_eq in E. subst. tauto.
  - f_equal. apply IH. tauto.
Qed.

Lemma removeEventListener_last t r :
  ~ In t r -> removeEventListener t (r ++ [t]) = r.
Proof.
  induction r as [| y r IH]; simpl.
  - now rewrite Nat.eqb_refl.
  - intros H. destruct (Nat.eqb t y) eqn:E.
    + apply Nat.eqb_eq in E. subst. tauto.
    + f_equal. apply IH. tauto.
Qed.

Lemma addEventListener_NoDup t r :
  NoDup r -> NoDup (addEventListener t r).
Proof.
  intros Hr. unfold addEventListener.
  destruct (registered t r) eqn:E; [exact Hr |].
  apply NoDup_app; [exact Hr | repeat constructor; simpl; tauto |].
  intros x Hx [<- | []].
  apply registered_In in Hx. congruence.
Qed.

Lemma addEventListener_In t r : In t (addEventListener t r).
Proof.
  unfold addEventListener. destruct (registered t r) eqn:E.
  - now apply registered_In.
  - apply in_or_app. right. now left.
Qed.

Lemma addEventListener_fresh t r :
  ~ In t r -> addEventListener t r = r ++ [t].
Proof.
  intros H. unfold addEventListener.
  destruct (registered t r) eqn:E; [| reflexivity].
  apply registered_In in E. tauto.
Qed.

Lemma listenerCount_NoDup t r : NoDup r -> listenerCount t r <= 1.
Proof.
  intros H. unfold listenerCount.
  now apply (proj1 (NoDup_count_occ Nat.eq_dec r)).
Qed.

Lemma listenerCount_zero t r : listenerCount t r = 0 <-> ~ In t r.
Proof.
  unfold listenerCount. symmetry. apply count_occ_not_In.
Qed.

Lemma listenerCount_one t r : NoDup r -> In t r -> listenerCount t r = 1.
Proof.
  intros Hr Hin. unfold listenerCount.
  now apply (proj1 (NoDup_count_occ' Nat.eq_dec r)).
Qed.

End Registry.

(** [querySelector] against its reading in words: the element it
    returns is in the document and matches the selector, and it returns
    [null] exactly when no element of the document matches. *)
Lemma querySelector_matches (sel : Selector) (d a : Element) :
  querySelector sel d = Some a ->
  exists anc, In (anc, a) (treeOrder [] d) /\ matchesSelector sel anc a = true.
Proof.
  unfold querySelector. intros H.
  destruct (find _ (treeOrder [] d)) as [[anc e] |] eqn:F; [| discriminate].
  injection H as <-.
  apply find_some in F. exists anc. exact F.
Qed.

Lemma querySelector_null (sel : Selector) (d : Element) :
  querySelector sel d = None <->
  forall anc e, In (anc, e) (treeOrder [] d) -> matchesSelector sel anc e = false.
Proof.
  unfold querySelector. split.
  - intros H anc e Hin.
    destruct (find _ (treeOrder [] d)) eqn:F; [discriminate |].
    exact (find_none _ _ F (anc, e) Hin).
  - intros H.
    destruct (find _ (treeOrder [] d)) as [[anc e] |] eqn:F; [| reflexivity].
    apply find_some in F. destruct F as [Hin Hm].
    simpl in Hm. rewrite (H anc e Hin) in Hm. discriminate.
Qed.

(** The active-tab selector asks for the four classes on one element. *)
Lemma matches_activeTabSelector (anc : list Element) (e : Element) :
  matchesSelector activeTabSelector anc e = true <->
  hasClass e "workspace-tab-header" = true /\ hasClass e "tappable" = true /\
  hasClass e "is-active" = true /\ hasClass e "mod-active" = true.
Proof.
  unfold matchesSelector, activeTabSelector, matchesCompound. simpl.
  assert (Hnil : matchesAncestors [] anc = true) by (destruct anc; reflexivity).
  rewrite Hnil, !andb_true_iff. intuition.
Qed.

(** An element found by [querySelector] is in the document. *)
Lemma querySelector_in_document (sel : Selector) (d a : Element) :
  querySelector sel d = Some a -> In (eid a) (elementIds d).
Proof.
  unfold querySelector, elementIds. intros H.
  destruct (find _ (treeOrder [] d)) as [[anc e] |] eqn:F; [| discriminate].
  injection H as <-.
  apply find_some in F. destruct F as [F _].
  apply (in_map (fun p => eid (snd p))) in F. exact F.
Qed.

(** Setting the listeners to what they already are changes nothing. *)
Lemma setListeners_same (w : World) : setListeners (dblclickListeners w) w = w.
Proof. destruct w; reflexivity. Qed.

Lemma removeDoubleClickListener_frame (w : World) :
  let w' := removeDoubleClickListener w in
  document w' = document w /\
  settings_enableDoubleClick w' = settings_enableDoubleClick w /\
  observing w' = observing w /\
  saveAccess w' = saveAccess w /\
  effects w' = effects w.
Proof.
  unfold removeDoubleClickListener.
  destruct (querySelector activeTabSelector (document w));
    simpl; repeat split; reflexivity.
Qed.

Lemma addDoubleClickListener_frame (w : World) :
  let w' := addDoubleClickListener w in
  document w' = document w /\
  settings_enableDoubleClick w' = settings_enableDoubleClick w /\
  observing w' = observing w /\
  saveAccess w' = saveAccess w /\
  effects w' = effects w.
Proof.
  unfold addDoubleClickListener.
  destruct (removeDoubleClickListener_frame w) as (Hd & Hs & Ho & Ha & He).
  destruct (querySelector activeTabSelector
              (document (removeDoubleClickListener w)));
    simpl; repeat split; assumption.
Qed.

Lemma removeDoubleClickListener_NoDup (w : World) :
  NoDup (dblclickListeners w) ->
  NoDup (dblclickListeners (removeDoubleClickListener w)).
Proof.
  intros H. unfold removeDoubleClickListener.
  destruct (querySelector activeTabSelector (document w)); simpl;
    [now apply removeEventListener_NoDup | exact H].
Qed.

Lemma addDoubleClickListener_NoDup (w : World) :
  NoDup (dblclickListeners w) ->
  NoDup (dblclickListeners (addDoubleClickListener w)).
Proof.
  intros H. unfold addDoubleClickListener.
  apply removeDoubleClickListener_NoDup in H.
  destruct (querySelector activeTabSelector
              (document (removeDoubleClickListener w))); simpl;
    [now apply addEventListener_NoDup | exact H].
Qed.

(** The listeners after [removeDoubleClickListener] and after
    [addDoubleClickListener] when a header is active. *)
Lemma removeDoubleClickListener_active (w : World) (a : Element) :
  querySelector activeTabSelector (document w) = Some a ->
  dblclickListeners (removeDoubleClickListener w)
    = removeEventListener (eid a) (dblclickListeners w).
Proof.
  intros Ha. unfold removeDoubleClickListener. now rewrite Ha.
Qed.

Lemma addDoubleClickListener_active (w : World) (a : Element) :
  querySelector activeTabSelector (document w) = Some a ->
  dblclickListeners (addDoubleClickListener w)
    = addEventListener (eid a)
        (removeEventListener (eid a) (dblclickListeners w)).
Proof.
  intros Ha. unfold addDoubleClickListener.
  destruct (removeDoubleClickListener_frame w) as (Hd & _).
  rewrite Hd, Ha. simpl. now rewrite (removeDoubleClickListener_active w a Ha).
Qed.

Lemma runCallback_copyLink_frame (src : SourceFile) (w : World) :
  let w' := runCallback (copyLink src) w in
  document w' = document w /\
  settings_enableDoubleClick w' = settings_enableDoubleClick w /\
  dblclickListeners w' = dblclickListeners w /\
  observing w' = observing w /\
  saveAccess w' = saveAccess w.
Proof.
  pose proof (copyLink_frame src w) as H. unfold runCallback.
  destruct (copyLink src w); simpl in *; tauto.
Qed.

Lemma times_copyLink_frame (src : SourceFile) (n : nat) (w : World) :
  let w' := times n (runCallback (handleDoubleClick src)) w in
  document w' = document w /\
  settings_enableDoubleClick w' = settings_enableDoubleClick w /\
  dblclickListeners w' = dblclickListeners w /\
  observing w' = observing w /\
  saveAccess w' = saveAccess w.
Proof.
  revert w. induction n as [| n IH]; intros w; simpl; [tauto |].
  destruct (IH (runCallback (handleDoubleClick src) w)) as (A & B & C & D & E).
  destruct (runCallback_copyLink_frame src w) as (A' & B' & C' & D' & E').
  change (runCallback (handleDoubleClick src) w)
    with (runCallback (copyLink src) w) in *.
  rewrite A, B, C, D, E. repeat split; assumption.
Qed.

(** No event ever puts a second copy of the listener on a target. *)
Lemma step_NoDup (src : SourceFile) (ev : Event) (w : World) :
  NoDup (dblclickListeners w) -> NoDup (dblclickListeners (step src ev w)).
Proof.
  intros H. destruct ev as [d | d | value | target | | a | a]; simpl.
  - destruct (observing w); [| exact H]. unfold observerCallback. simpl.
    destruct (settings_enableDoubleClick w);
      [apply addDoubleClickListener_NoDup | apply removeDoubleClickListener_NoDup];
      exact H.
  - destruct (sameSkeleton (document w) d); exact H.
  - unfold runCallback, onChange, saveSettings. simpl.
    destruct (saveAccess w); simpl; [| exact H].
    destruct value;
      [apply addDoubleClickListener_NoDup | apply removeDoubleClickListener_NoDup];
      exact H.
  - destruct (existsb _ _); [| exact H].
    now rewrite (proj1 (proj2 (proj2 (times_copyLink_frame src _ w)))).
  - now rewrite (proj1 (proj2 (proj2 (runCallback_copyLink_frame src w)))).
  - exact H.
  - exact H.
Qed.

Lemma onload_NoDup (src : SourceFile) (w : World) :
  NoDup (dblclickListeners w) -> NoDup (dblclickListeners (onload src w)).
Proof.
  intros H. unfold onload.
  set (w0 := match src with part_000 => w | main_ts => _ end).
  assert (H0 : NoDup (dblclickListeners (loadSettings w0)))
    by (subst w0; destruct src; exact H).
  destruct (settings_enableDoubleClick (loadSettings w0));
    cbv beta zeta;
    change (dblclickListeners (setObserving true ?x)) with (dblclickListeners x);
    [apply addDoubleClickListener_NoDup |]; exact H0.
Qed.

Lemma run_NoDup (src : SourceFile) (evs : list Event) (w : World) :
  NoDup (dblclickListeners w) -> NoDup (dblclickListeners (run src evs w)).
Proof.
  revert w. induction evs as [| ev evs IH]; intros w H; simpl; [exact H |].
  apply IH, step_NoDup, H.
Qed.

Lemma reachable_NoDup (src : SourceFile) (evs : list Event) (w0 : World) :
  dblclickListeners w0 = [] ->
  NoDup (dblclickListeners (run src evs (onload src w0))).
Proof.
  intros H0. apply run_NoDup, onload_NoDup. rewrite H0. constructor.
Qed.

Lemma setListeners_twice (r r' : Registry) (w : World) :
  setListeners r (setListeners r' w) = setListeners r w.
Proof. reflexivity. Qed.

Lemma removeDoubleClickListener_as_set (w : World) :
  removeDoubleClickListener w
  = setListeners (dblclickListeners (removeDoubleClickListener w)) w.
Proof.
  unfold removeDoubleClickListener.
  destruct (querySelector activeTabSelector (document w)); simpl.
  - reflexivity.
  - symmetry. apply setListeners_same.
Qed.

Lemma addDoubleClickListener_as_set (w : World) :
  addDoubleClickListener w
  = setListeners (dblclickListeners (addDoubleClickListener w)) w.
Proof.
  unfold addDoubleClickListener.
  destruct (querySelector activeTabSelector
              (document (removeDoubleClickListener w))) as [e |]; simpl.
  - generalize (addEventListener (eid e)
                  (dblclickListeners (removeDoubleClickListener w))).
    intros r. rewrite (removeDoubleClickListener_as_set w). reflexivity.
  - apply removeDoubleClickListener_as_set.
Qed.

(** Detaching where nothing is attached is a no-op. *)
Lemma removeDoubleClickListener_noop (w : World) :
  (forall a, querySelector activeTabSelector (document w) = Some a ->
             listenerCount (eid a) (dblclickListeners w) = 0) ->
  removeDoubleClickListener w = w.
Proof.
  intros H. unfold removeDoubleClickListener.
  destruct (querySelector activeTabSelector (document w)) as [a |];
    [| reflexivity].
  rewrite removeEventListener_absent.
  - apply setListeners_same.
  - apply listenerCount_zero, H. reflexivity.
Qed.

(** Attaching twice with the same document is the same as attaching once. *)
Lemma addDoubleClickListener_idempotent (w : World) :
  NoDup (dblclickListeners w) ->
  addDoubleClickListener (addDoubleClickListener w) = addDoubleClickListener w.
Proof.
  intros Hnd.
  rewrite (addDoubleClickListener_as_set (addDoubleClickListener w)).
  rewrite (addDoubleClickListener_as_set w) at 2 3.
  rewrite setListeners_twice. f_equal.
  destruct (querySelector activeTabSelector (document w)) as [a |] eqn:Ha.
  - assert (Hgone : ~ In (eid a)
                        (removeEventListener (eid a) (dblclickListeners w)))
      by now apply removeEventListener_gone.
    rewrite (addDoubleClickListener_active (addDoubleClickListener w) a)
      by (now rewrite (proj1 (addDoubleClickListener_frame w))).
    rewrite (addDoubleClickListener_active w a Ha).
    rewrite (addEventListener_fresh _ _ Hgone).
    rewrite (removeEventListener_last _ _ Hgone).
    now rewrite (addEventListener_fresh _ _ Hgone).
  - assert (Hrm : removeDoubleClickListener w = w)
      by (apply removeDoubleClickListener_noop; intros a; congruence).
    assert (Hadd : addDoubleClickListener w = w)
      by (unfold addDoubleClickListener; now rewrite Hrm, Ha).
    now rewrite Hadd, Hadd.
Qed.

(** C7.  In every state the plugin reaches after [onload], through any
    sequence of events, no element carries the double-click listener
    more than once.  For the header that is active in such a state:
    [removeDoubleClickListener] leaves no listener on it,
    [addDoubleClickListener] (which starts by calling
    [removeDoubleClickListener]) leaves exactly one, a second
    [addDoubleClickListener] with the document unchanged changes
    nothing more, and [removeDoubleClickListener] is a no-op when the
    active header carries no listener or when no header is active. *)
Theorem C7_at_most_one_trigger :
  forall (src : SourceFile) (w0 : World) (evs : list Event),
    dblclickListeners w0 = [] ->
    let w := run src evs (onload src w0) in
    (forall target, listenerCount target (dblclickListeners w) <= 1) /\
    (forall a, querySelector activeTabSelector (document w) = Some a ->
       listenerCount (eid a) (dblclickListeners (removeDoubleClickListener w)) = 0 /\
       listenerCount (eid a) (dblclickListeners (addDoubleClickListener w)) = 1 /\
       (listenerCount (eid a) (dblclickListeners w) = 0 ->
        removeDoubleClickListener w = w)) /\
    addDoubleClickListener (addDoubleClickListener w) = addDoubleClickListener w /\
    (querySelector activeTabSelector (document w) = None ->
     removeDoubleClickListener w = w).
Proof.
  intros src w0 evs H0 w.
  pose proof (reachable_NoDup src evs w0 H0) as Hnd. fold w in Hnd.
  split; [| split; [| split]].
  - intros target. now apply listenerCount_NoDup.
  - intros a Ha. split; [| split].
    + rewrite (removeDoubleClickListener_active w a Ha).
      apply listenerCount_zero. now apply removeEventListener_gone.
    + rewrite (addDoubleClickListener_active w a Ha).
      apply listenerCount_one.
      * now apply addEventListener_NoDup, removeEventListener_NoDup.
      * apply addEventListener_In.
    + intros Hz. apply removeDoubleClickListener_noop.
      intros a' Ha'. congruence.
  - now apply addDoubleClickListener_idempotent.
  - intros Hn. apply removeDoubleClickListener_noop. intros a; congruence.
Qed.

Lemma C7_witness :
  let w := run part_000
             [ChildListMutation docsActive; ChildListMutation docsActive;
              ToggleSetting true; ChildListMutation notesActive;
              ChildListMutation docsActive]
             (onload part_000 (sampleWorld notesActive)) in
  dblclickListeners (sampleWorld notesActive) = [] /\
  dblclickListeners w = [10; 20] /\
  listenerCount 20 (dblclickListeners w) <= 1 /\
  addDoubleClickListener (addDoubleClickListener w) = addDoubleClickListener w.
Proof.
  intros w. split; [reflexivity |]. split; [reflexivity |].
  pose proof (C7_at_most_one_trigger part_000 (sampleWorld notesActive)
                [ChildListMutation docsActive; ChildListMutation docsActive;
                 ToggleSetting true; ChildListMutation notesActive;
                 ChildListMutation docsActive] eq_refl) as (Hle & _ & Hidem & _).
  split; [exact (Hle 20) | exact Hidem].
Defined.

(** What the toggle does to the state when the settings are saved. *)
Lemma onChange_saved (value : bool) (w : World) :
  saveAccess w = Fulfilled ->
  runCallback (onChange value) w =
  let w2 := setStoredData (Some value) (setEnableDoubleClick value w) in
  if value then addDoubleClickListener w2 else removeDoubleClickListener w2.
Proof.
  intros Hs. unfold runCallback, onChange, saveSettings. simpl.
  rewrite Hs. reflexivity.
Qed.

(** When saving fails the [await] throws: the setting is changed in
    memory, and the listeners are left as they were. *)
Lemma onChange_save_rejected (value : bool) (w : World) (reason : string) :
  saveAccess w = Rejected reason ->
  runCallback (onChange value) w
  = emit (Uncaught reason) (setEnableDoubleClick value w).
Proof.
  intros Hs. unfold runCallback, onChange, saveSettings. simpl.
  rewrite Hs. reflexivity.
Qed.

Lemma doubleClick_fires_once (src : SourceFile) (w : World) (a : Element) :
  querySelector activeTabSelector (document w) = Some a ->
  listenerCount (eid a) (dblclickListeners w) = 1 ->
  step src (DoubleClick (eid a)) w = runCallback (copyLink src) w.
Proof.
  intros Ha Hc. simpl.
  assert (Hin : existsb (Nat.eqb (eid a)) (elementIds (document w)) = true).
  { apply existsb_exists. exists (eid a). split.
    - eapply querySelector_in_document, Ha.
    - apply Nat.eqb_refl. }
  rewrite Hin, Hc. reflexivity.
Qed.

Lemma doubleClick_without_listener (src : SourceFile) (w : World) (target : nat) :
  listenerCount target (dblclickListeners w) = 0 ->
  step src (DoubleClick target) w = w.
Proof.
  intros Hc. simpl. rewrite Hc. now destruct (existsb _ _).
Qed.

(** C8, as amended.  In any state reached after [onload] in which a
    header is active, provided the save of the settings that the
    toggle's callback awaits succeeds: switching the toggle on sets
    the setting and puts the listener on the active header at once, so
    that a double-click on that header runs [copyLink] with no UI
    mutation in between; switching it off clears the setting and takes
    the listener off the active header at once, so that a double-click
    on it does nothing. *)
Theorem C8_toggle_applies_immediately :
  forall (src : SourceFile) (w0 : World) (evs : list Event) (a : Element),
    dblclickListeners w0 = [] ->
    let w := run src evs (onload src w0) in
    saveAccess w = Fulfilled ->
    querySelector activeTabSelector (document w) = Some a ->
    (let w' := step src (ToggleSetting true) w in
     settings_enableDoubleClick w' = true /\
     document w' = document w /\
     listenerCount (eid a) (dblclickListeners w') = 1 /\
     step src (DoubleClick (eid a)) w' = runCallback (copyLink src) w') /\
    (let w' := step src (ToggleSetting false) w in
     settings_enableDoubleClick w' = false /\
     document w' = document w /\
     listenerCount (eid a) (dblclickListeners w') = 0 /\
     step src (DoubleClick (eid a)) w' = w').
Proof.
  intros src w0 evs a H0 w Hs Ha.
  pose proof (reachable_NoDup src evs w0 H0) as Hnd. fold w in Hnd.
  split; intros w'; subst w'; simpl step; rewrite (onChange_saved _ w Hs);
    cbv zeta;
    set (w2 := setStoredData _ (setEnableDoubleClick _ w)).
  - destruct (addDoubleClickListener_frame w2) as (Hd & Hen & _).
    assert (Hcount : listenerCount (eid a)
                       (dblclickListeners (addDoubleClickListener w2)) = 1).
    { rewrite (addDoubleClickListener_active w2 a Ha).
      apply listenerCount_one.
      - now apply addEventListener_NoDup, removeEventListener_NoDup.
      - apply addEventListener_In. }
    repeat split; try assumption.
    apply doubleClick_fires_once; [now rewrite Hd | exact Hcount].
  - destruct (removeDoubleClickListener_frame w2) as (Hd & Hen & _).
    assert (Hcount : listenerCount (eid a)
                       (dblclickListeners (removeDoubleClickListener w2)) = 0).
    { rewrite (removeDoubleClickListener_active w2 a Ha).
      apply listenerCount_zero. now apply removeEventListener_gone. }
    repeat split; try assumption.
    now apply doubleClick_without_listener.
Qed.

Lemma C8_witness :
  let w := run part_000 [] (onload part_000
                              (setStoredData (Some false) (sampleWorld notesActive))) in
  let w' := step part_000 (ToggleSetting true) w in
  dblclickListeners (setStoredData (Some false) (sampleWorld notesActive)) = [] /\
  saveAccess w = Fulfilled /\
  querySelector activeTabSelector (document w) = Some notesHeader /\
  settings_enableDoubleClick w = false /\
  dblclickListeners w = [] /\
  listenerCount (eid notesHeader) (dblclickListeners w') = 1 /\
  writes (effects (step part_000 (DoubleClick (eid notesHeader)) w'))
    = [ "[[Project Notes]]" ] /\
  listenerCount (eid notesHeader)
    (dblclickListeners (step part_000 (ToggleSetting false) w')) = 0.
Proof.
  intros w w'.
  split; [reflexivity |]. split; [reflexivity |]. split; [reflexivity |].
  split; [reflexivity |]. split; [reflexivity |].
  pose proof (C8_toggle_applies_immediately part_000
                (setStoredData (Some false) (sampleWorld notesActive)) []
                notesHeader eq_refl eq_refl eq_refl) as [(_ & _ & Hon & Hdbl) _].
  split; [exact Hon |]. split.
  - fold w in Hdbl. fold w' in Hdbl. rewrite Hdbl. reflexivity.
  - pose proof (C8_toggle_applies_immediately part_000
                  (setStoredData (Some false) (sampleWorld notesActive))
                  [ToggleSetting true]
                  notesHeader eq_refl eq_refl eq_refl) as [_ (_ & _ & Hoff & _)].
    exact Hoff.
Defined.

(** When the save of the settings is refused, the toggle's callback
    stops at the [await]: switching the toggle on sets the setting and
    attaches nothing, so a double-click on the active header copies
    nothing; switching it off clears the setting and leaves the
    listener on the active header, so a double-click still copies. *)
Lemma C8_counterexample :
  let off := run part_000 [SaveAccessChange (Rejected "EACCES")]
                 (onload part_000
                    (setStoredData (Some false) (sampleWorld notesActive))) in
  let on := run part_000 [SaveAccessChange (Rejected "EACCES")]
                (onload part_000 (sampleWorld notesActive)) in
  (querySelector activeTabSelector (document off) = Some notesHeader /\
   settings_enableDoubleClick off = false /\
   settings_enableDoubleClick (step part_000 (ToggleSetting true) off) = true /\
   listenerCount (eid notesHeader)
     (dblclickListeners (step part_000 (ToggleSetting true) off)) = 0 /\
   writes (effects (run part_000
                      [ToggleSetting true; DoubleClick (eid notesHeader)] off))
     = []) /\
  (querySelector activeTabSelector (document on) = Some notesHeader /\
   settings_enableDoubleClick on = true /\
   settings_enableDoubleClick (step part_000 (ToggleSetting false) on) = false /\
   listenerCount (eid notesHeader)
     (dblclickListeners (step part_000 (ToggleSetting false) on)) = 1 /\
   writes (effects (run part_000
                      [ToggleSetting false; DoubleClick (eid notesHeader)] on))
     = [ "[[Project Notes]]" ]).
Proof. intros off on. vm_compute. repeat split; reflexivity. Qed.

(** C6, the failing run.  The plugin is loaded with the default
    settings while the note tab is in front, the web tab comes to the
    front (nodes are replaced, the observer runs), and the user
    switches the toggle off.  The setting is now off and the header of
    the note tab still carries the listener, because
    [removeDoubleClickListener] only looks at the header that is active
    when it runs.  A double-click on that header writes to the
    clipboard.  The same holds after the note tab has come back to the
    front by a change of classes alone: the setting is off, the active
    header carries the listener, and a double-click on it copies its
    link. *)
Theorem C6_stale_trigger_fires_when_disabled :
  forall src : SourceFile,
    let w1 := run src [ChildListMutation docsActive; ToggleSetting false]
                  (onload src (sampleWorld notesActive)) in
    let w2 := step src (AttributeMutation notesActive) w1 in
    (settings_enableDoubleClick w1 = false /\
     dblclickListeners w1 = [eid notesHeader] /\
     writes (newEffects w1 (step src (DoubleClick (eid notesHeader)) w1))
       = [ "[Docs](https://example.com)" ]) /\
    (settings_enableDoubleClick w2 = false /\
     querySelector activeTabSelector (document w2) = Some notesHeader /\
     listenerCount (eid notesHeader) (dblclickListeners w2) = 1 /\
     writes (newEffects w2 (step src (DoubleClick (eid notesHeader)) w2))
       = [ "[[Project Notes]]" ]).
Proof.
  intros src. destruct src; vm_compute; repeat split; reflexivity.
Qed.

Lemma removeDoubleClickListener_clean (w : World) :
  observing w = true -> saveAccess w = Fulfilled ->
  NoDup (dblclickListeners w) ->
  disabledClean (removeDoubleClickListener w).
Proof.
  intros Ho Hs Hnd.
  destruct (removeDoubleClickListener_frame w) as (Hd & _ & Ho' & Hs' & _).
  repeat split.
  - congruence.
  - congruence.
  - now apply removeDoubleClickListener_NoDup.
  - intros _ a Ha. rewrite Hd in Ha.
    rewrite (removeDoubleClickListener_active w a Ha).
    apply listenerCount_zero. now apply removeEventListener_gone.
Qed.

Lemma addDoubleClickListener_clean (w : World) :
  observing w = true -> saveAccess w = Fulfilled ->
  settings_enableDoubleClick w = true ->
  NoDup (dblclickListeners w) ->
  disabledClean (addDoubleClickListener w).
Proof.
  intros Ho Hs Hen Hnd.
  destruct (addDoubleClickListener_frame w) as (_ & Hen' & Ho' & Hs' & _).
  repeat split.
  - congruence.
  - congruence.
  - now apply addDoubleClickListener_NoDup.
  - intros Hoff. congruence.
Qed.

Lemma step_disabledClean (src : SourceFile) (ev : Event) (w : World) :
  reconciled ev = true -> disabledClean w -> disabledClean (step src ev w).
Proof.
  intros Hev (Ho & Hs & Hnd & Hoff).
  destruct ev as [d | d | value | target | | acc | acc]; simpl in Hev |- *.
  - rewrite Ho. unfold observerCallback. simpl.
    destruct (settings_enableDoubleClick w) eqn:Hen.
    + now apply addDoubleClickListener_clean.
    + now apply removeDoubleClickListener_clean.
  - discriminate.
  - rewrite (onChange_saved value w Hs). cbv zeta.
    destruct value.
    + now apply addDoubleClickListener_clean.
    + now apply removeDoubleClickListener_clean.
  - destruct (existsb _ _); [| now repeat split].
    destruct (times_copyLink_frame src
                (listenerCount target (dblclickListeners w)) w)
      as (Hd & Hen & Hl & Ho' & Hs').
    repeat split; try congruence.
    rewrite Hd, Hen, Hl. exact Hoff.
  - destruct (runCallback_copyLink_frame src w) as (Hd & Hen & Hl & Ho' & Hs').
    repeat split; try congruence.
    rewrite Hd, Hen, Hl. exact Hoff.
  - now repeat split.
  - destruct acc; [now repeat split | discriminate].
Qed.

Lemma onload_disabledClean (src : SourceFile) (w0 : World) :
  dblclickListeners w0 = [] -> saveAccess w0 = Fulfilled ->
  disabledClean (onload src w0).
Proof.
  intros H0 Hs. unfold onload.
  set (w1 := loadSettings _).
  assert (Hl : dblclickListeners w1 = []) by (subst w1; destruct src; exact H0).
  assert (Hs1 : saveAccess w1 = Fulfilled) by (subst w1; destruct src; exact Hs).
  destruct (settings_enableDoubleClick w1) eqn:Hen; cbv zeta;
    unfold disabledClean;
    cbn [observing saveAccess dblclickListeners settings_enableDoubleClick
         document setObserving].
  - destruct (addDoubleClickListener_frame w1) as (_ & Hen' & _ & Hs' & _).
    split; [reflexivity |]. split; [congruence |]. split.
    + apply addDoubleClickListener_NoDup. rewrite Hl. constructor.
    + congruence.
  - split; [reflexivity |]. split; [exact Hs1 |]. split.
    + rewrite Hl. constructor.
    + intros _ a _. now rewrite Hl.
Qed.

(** With the setting off, after events that are all followed by a
    reconciliation, the header that is active carries no listener and
    a double-click on it does nothing.  Headers that were active
    earlier are not covered. *)
Lemma disabled_active_header_has_no_trigger :
  forall (src : SourceFile) (w0 : World) (evs : list Event),
    dblclickListeners w0 = [] ->
    saveAccess w0 = Fulfilled ->
    forallb reconciled evs = true ->
    let w := run src evs (onload src w0) in
    settings_enableDoubleClick w = false ->
    forall a, querySelector activeTabSelector (document w) = Some a ->
      listenerCount (eid a) (dblclickListeners w) = 0 /\
      step src (DoubleClick (eid a)) w = w.
Proof.
  intros src w0 evs H0 Hs Hevs w Hoff a Ha.
  assert (Hclean : disabledClean w).
  { subst w. generalize (onload_disabledClean src w0 H0 Hs).
    generalize (onload src w0). clear - Hevs.
    induction evs as [| ev evs IH]; intros v Hv; simpl; [exact Hv |].
    simpl in Hevs. apply andb_prop in Hevs. destruct Hevs as [Hev Hevs].
    apply IH; [exact Hevs |]. now apply step_disabledClean. }
  destruct Hclean as (_ & _ & _ & Hz).
  split; [now apply Hz |].
  apply doubleClick_without_listener. now apply Hz.
Qed.

(* ================================================================== *)
(** ** Further properties of [copyLink] *)
(* ================================================================== *)

(** The ways a run of [copyLink] can go. *)
Lemma copyLink_cases (src : SourceFile) (w : World) :
  querySelector activeTabSelector (document w) = None \/
  (exists a, querySelector activeTabSelector (document w) = Some a /\
     src = part_000 /\
     querySelector innerTitleSelector (document w) = None) \/
  (exists a T, querySelector activeTabSelector (document w) = Some a /\
     tabTitle src (document w) a = Some T /\
     getAttribute "data-type" a = Some "webviewer") \/
  (exists a T, querySelector activeTabSelector (document w) = Some a /\
     tabTitle src (document w) a = Some T /\
     getAttribute "data-type" a = Some "markdown") \/
  (exists a T, querySelector activeTabSelector (document w) = Some a /\
     tabTitle src (document w) a = Some T /\
     getAttribute "data-type" a <> Some "webviewer" /\
     getAttribute "data-type" a <> Some "markdown").
Proof.
  destruct (querySelector activeTabSelector (document w)) as [a |] eqn:Ha;
    [| now left].
  right.
  destruct (tabTitle src (document w) a) as [T |] eqn:HT.
  - right.
    destruct (strictEq (getAttribute "data-type" a) "webviewer") eqn:Hweb.
    + left. apply strictEq_true in Hweb. now exists a, T.
    + right. apply strictEq_false in Hweb.
      destruct (strictEq (getAttribute "data-type" a) "markdown") eqn:Hmd.
      * left. apply strictEq_true in Hmd. now exists a, T.
      * right. apply strictEq_false in Hmd. now exists a, T.
  - left. exists a. destruct src; [| discriminate]. simpl in HT.
    destruct (querySelector innerTitleSelector (document w)); [discriminate |].
    auto.
Qed.

(** The effects of the runs that resolve no link. *)
Lemma copyLinkEffects_no_active (src : SourceFile) (w : World) :
  querySelector activeTabSelector (document w) = None ->
  copyLinkEffects src w =
    match src with
    | part_000 => [NoticeShown "未找到激活的标签页"]
    | main_ts => [ConsoleLog ["No active tab found."]]
    end.
Proof.
  intros Ha. unfold copyLinkEffects. rewrite (copyLink_no_active src w Ha).
  destruct src; simpl; unfold Notice; apply newEffects_emit.
Qed.

Lemma copyLinkEffects_null_title (w : World) (a : Element) :
  querySelector activeTabSelector (document w) = Some a ->
  querySelector innerTitleSelector (document w) = None ->
  copyLinkEffects part_000 w = [].
Proof.
  intros Ha Hn. unfold copyLinkEffects.
  rewrite (copyLink_null_title w a Ha Hn). apply newEffects_refl.
Qed.

Lemma copyLinkEffects_other (src : SourceFile) (w : World) (a : Element) (T : string) :
  querySelector activeTabSelector (document w) = Some a ->
  tabTitle src (document w) a = Some T ->
  getAttribute "data-type" a <> Some "webviewer" ->
  getAttribute "data-type" a <> Some "markdown" ->
  copyLinkEffects src w = [].
Proof.
  intros Ha HT Hweb Hmd. unfold copyLinkEffects.
  rewrite (copyLink_other src w a T Ha HT Hweb Hmd). apply newEffects_refl.
Qed.

(** X1.  After [copyLink] the clipboard holds the link resolved from
    the document when there is one and the write is granted; in every
    other case (no active tab, missing title, unrecognised kind,
    refused write) it holds what it held before. *)
Theorem copyLink_clipboard :
  forall (src : SourceFile) (w : World),
    clipboard (completionWorld (copyLink src w)) =
    match resolveLink src (document w), clipboardAccess w with
    | Some link, Fulfilled => link
    | _, _ => clipboard w
    end.
Proof.
  intros src w. unfold resolveLink.
  destruct (copyLink_cases src w)
    as [Ha | [(a & Ha & -> & Hn) | [(a & T & Ha & HT & Hk) |
       [(a & T & Ha & HT & Hk) | (a & T & Ha & HT & Hweb & Hmd)]]]];
    rewrite Ha.
  - rewrite (copyLink_no_active src w Ha). now destruct src.
  - rewrite (copyLink_null_title w a Ha Hn). simpl. now rewrite Hn.
  - destruct (copyLink_web src w a T Ha Hk HT) as (_ & _ & Hc).
    rewrite Hc, HT, Hk. simpl. now destruct (clipboardAccess w).
  - destruct (copyLink_note src w a T Ha Hk HT) as (_ & _ & Hc).
    rewrite Hc, HT, Hk. simpl. now destruct (clipboardAccess w).
  - rewrite (copyLink_other src w a T Ha HT Hweb Hmd), HT.
    apply strictEq_false in Hweb. apply strictEq_false in Hmd.
    rewrite Hweb, Hmd. simpl. now destruct (clipboardAccess w).
Qed.

(** X2.  src/main.ts never shows a notice: whatever the document and
    the clipboard do, what it reports goes to the console.
    src/unnamed/part_000 never uses the console: a run of its
    [copyLink] consists of clipboard writes and notices only, and it
    shows at most one notice. *)
Theorem copyLink_reporting_channel :
  forall (w : World),
    notices (copyLinkEffects main_ts w) = [] /\
    existsb onConsole (copyLinkEffects part_000 w) = false /\
    length (notices (copyLinkEffects part_000 w)) <= 1.
Proof.
  intros w. split; [| split].
  - destruct (copyLink_cases main_ts w)
      as [Ha | [(a & Ha & E & Hn) | [(a & T & Ha & HT & Hk) |
         [(a & T & Ha & HT & Hk) | (a & T & Ha & HT & Hweb & Hmd)]]]].
    + now rewrite (copyLinkEffects_no_active main_ts w Ha).
    + discriminate E.
    + destruct (copyLink_web main_ts w a T Ha Hk HT) as (_ & He & _).
      rewrite He. now destruct (clipboardAccess w).
    + destruct (copyLink_note main_ts w a T Ha Hk HT) as (_ & He & _).
      rewrite He. now destruct (clipboardAccess w).
    + now rewrite (copyLinkEffects_other main_ts w a T Ha HT Hweb Hmd).
  - destruct (copyLink_cases part_000 w)
      as [Ha | [(a & Ha & _ & Hn) | [(a & T & Ha & HT & Hk) |
         [(a & T & Ha & HT & Hk) | (a & T & Ha & HT & Hweb & Hmd)]]]].
    + now rewrite (copyLinkEffects_no_active part_000 w Ha).
    + now rewrite (copyLinkEffects_null_title w a Ha Hn).
    + destruct (copyLink_web part_000 w a T Ha Hk HT) as (_ & He & _).
      rewrite He. now destruct (clipboardAccess w).
    + destruct (copyLink_note part_000 w a T Ha Hk HT) as (_ & He & _).
      rewrite He. now destruct (clipboardAccess w).
    + now rewrite (copyLinkEffects_other part_000 w a T Ha HT Hweb Hmd).
  - destruct (copyLink_cases part_000 w)
      as [Ha | [(a & Ha & _ & Hn) | [(a & T & Ha & HT & Hk) |
         [(a & T & Ha & HT & Hk) | (a & T & Ha & HT & Hweb & Hmd)]]]].
    + rewrite (copyLinkEffects_no_active part_000 w Ha). simpl. lia.
    + rewrite (copyLinkEffects_null_title w a Ha Hn). simpl. lia.
    + destruct (copyLink_web part_000 w a T Ha Hk HT) as (_ & He & _).
      rewrite He. destruct (clipboardAccess w); simpl; lia.
    + destruct (copyLink_note part_000 w a T Ha Hk HT) as (_ & He & _).
      rewrite He. destruct (clipboardAccess w); simpl; lia.
    + rewrite (copyLinkEffects_other part_000 w a T Ha HT Hweb Hmd).
      simpl. lia.
Qed.

(** The log is appended to, by exactly the effects of the run. *)
Lemma copyLink_effects_append (src : SourceFile) (w : World) :
  effects (completionWorld (copyLink src w))
  = effects w ++ copyLinkEffects src w.
Proof.
  destruct (copyLink_cases src w)
    as [Ha | [(a & Ha & -> & Hn) | [(a & T & Ha & HT & Hk) |
       [(a & T & Ha & HT & Hk) | (a & T & Ha & HT & Hweb & Hmd)]]]].
  - rewrite (copyLinkEffects_no_active src w Ha).
    rewrite (copyLink_no_active src w Ha). now destruct src.
  - rewrite (copyLinkEffects_null_title w a Ha Hn).
    rewrite (copyLink_null_title w a Ha Hn). simpl. now rewrite app_nil_r.
  - destruct (copyLink_web src w a T Ha Hk HT) as (_ & He & _).
    rewrite He. clear He.
    destruct src; simpl in HT |- *;
      [unfold Part000.copyLink | unfold MainTs.copyLink]; rewrite Ha;
      [destruct (querySelector innerTitleSelector (document w));
         [| discriminate] |];
      simpl in HT; injection HT as HT; rewrite HT, Hk; simpl;
      unfold writeText; simpl;
      destruct (clipboardAccess w); simpl; now rewrite <- ?app_assoc.
  - destruct (copyLink_note src w a T Ha Hk HT) as (_ & He & _).
    rewrite He. clear He.
    destruct src; simpl in HT |- *;
      [unfold Part000.copyLink | unfold MainTs.copyLink]; rewrite Ha;
      [destruct (querySelector innerTitleSelector (document w));
         [| discriminate] |];
      simpl in HT; injection HT as HT; rewrite HT, Hk; simpl;
      unfold writeText; simpl;
      destruct (clipboardAccess w); simpl; now rewrite <- ?app_assoc.
  - rewrite (copyLinkEffects_other src w a T Ha HT Hweb Hmd).
    rewrite (copyLink_other src w a T Ha HT Hweb Hmd). simpl.
    now rewrite app_nil_r.
Qed.

(** X3.  [copyLink] touches the clipboard and the log only, whether it
    returns or throws: the document, the setting, the stored data, the
    listeners, the observer and the host's permissions are what they
    were, and the log is the old log followed by the effects of the
    run. *)
Theorem copyLink_changes_nothing_else :
  forall (src : SourceFile) (w : World),
    let w' := completionWorld (copyLink src w) in
    document w' = document w /\
    settings_enableDoubleClick w' = settings_enableDoubleClick w /\
    storedData w' = storedData w /\
    dblclickListeners w' = dblclickListeners w /\
    observing w' = observing w /\
    clipboardAccess w' = clipboardAccess w /\
    saveAccess w' = saveAccess w /\
    effects w' = effects w ++ copyLinkEffects src w.
Proof.
  intros src w w'.
  destruct (copyLink_frame src w) as (Hd & Hen & Hl & Ho & Hs & Hc & Hst).
  pose proof (copyLink_effects_append src w) as He.
  repeat split; assumption.
Qed.

Lemma web_tab_webview_without_src_witness :
  querySelector activeTabSelector docsActiveNoSrc = Some docsHeader /\
  getAttribute "data-type" docsHeader = Some "webviewer" /\
  tabTitle part_000 docsActiveNoSrc docsHeader = Some "Docs" /\
  querySelector webviewSelector docsActiveNoSrc
    = Some (Node 32 "webview" [] [] "" []) /\
  writes (copyLinkEffects part_000 (sampleWorld docsActiveNoSrc))
    = [ "[Docs](null)" ].
Proof.
  split; [reflexivity |]. split; [reflexivity |]. split; [reflexivity |].
  split; [reflexivity |].
  exact (web_tab_webview_without_src part_000 (sampleWorld docsActiveNoSrc)
           docsHeader (Node 32 "webview" [] [] "" []) "Docs"
           eq_refl eq_refl eq_refl eq_refl eq_refl).
Defined.

(* ================================================================== *)
(** ** Further properties of the trigger manager and the settings *)
(* ================================================================== *)

Lemma writes_app (es es' : list Effect) :
  writes (es ++ es') = writes es ++ writes es'.
Proof.
  induction es as [| e es IH]; simpl; [reflexivity |].
  destruct e; simpl; now rewrite IH.
Qed.

Lemma copyLink_at_most_one_write (src : SourceFile) (w : World) :
  length (writes (copyLinkEffects src w)) <= 1.
Proof.
  rewrite copyLink_writes_resolved.
  destruct (resolveLink src (document w)); simpl; lia.
Qed.

Lemma runCallback_copyLink_writes (src : SourceFile) (w : World) :
  writes (newEffects w (runCallback (copyLink src) w))
  = writes (copyLinkEffects src w).
Proof.
  pose proof (copyLink_effects_append src w) as He.
  unfold runCallback, copyLinkEffects in *.
  destruct (copyLink src w) as [w' | err w']; simpl in *; [reflexivity |].
  rewrite (newEffects_extend w (emit (Uncaught err) w')
             (newEffects w w' ++ [Uncaught err])).
  - rewrite writes_app. simpl. now rewrite app_nil_r.
  - simpl. rewrite He. now rewrite <- app_assoc.
Qed.

Lemma removeDoubleClickListener_rest (w : World) :
  let w' := removeDoubleClickListener w in
  storedData w' = storedData w /\
  clipboard w' = clipboard w /\
  clipboardAccess w' = clipboardAccess w.
Proof.
  unfold removeDoubleClickListener.
  destruct (querySelector activeTabSelector (document w));
    simpl; repeat split; reflexivity.
Qed.

Lemma addDoubleClickListener_rest (w : World) :
  let w' := addDoubleClickListener w in
  storedData w' = storedData w /\
  clipboard w' = clipboard w /\
  clipboardAccess w' = clipboardAccess w.
Proof.
  rewrite (addDoubleClickListener_as_set w). simpl. repeat split; reflexivity.
Qed.

Lemma times_copyLink_storedData (src : SourceFile) (n : nat) (w : World) :
  storedData (times n (runCallback (handleDoubleClick src)) w) = storedData w.
Proof.
  revert w. induction n as [| n IH]; intros w; simpl; [reflexivity |].
  rewrite IH.
  change (runCallback (handleDoubleClick src) w)
    with (runCallback (copyLink src) w).
  pose proof (copyLink_frame src w) as H. unfold runCallback.
  destruct (copyLink src w); simpl in *; tauto.
Qed.

(** Listener counts away from the target of [addEventListener] and
    [removeEventListener]. *)
Lemma removeEventListener_count_other (t x : nat) (r : Registry) :
  t <> x ->
  listenerCount x (removeEventListener t r) = listenerCount x r.
Proof.
  intros Hne. unfold listenerCount.
  induction r as [| y r IH]; simpl; [reflexivity |].
  destruct (Nat.eqb t y) eqn:E.
  - apply Nat.eqb_eq in E. subst y.
    destruct (Nat.eq_dec t x); [contradiction | reflexivity].
  - simpl. destruct (Nat.eq_dec y x); now rewrite IH.
Qed.

Lemma addEventListener_count_other (t x : nat) (r : Registry) :
  t <> x ->
  listenerCount x (addEventListener t r) = listenerCount x r.
Proof.
  intros Hne. unfold listenerCount, addEventListener.
  destruct (registered t r); [reflexivity |].
  rewrite count_occ_app. simpl.
  destruct (Nat.eq_dec t x); [contradiction | lia].
Qed.

Lemma removeDoubleClickListener_count_other (w : World) (x : nat) :
  (forall a, querySelector activeTabSelector (document w) = Some a -> eid a <> x) ->
  listenerCount x (dblclickListeners (removeDoubleClickListener w))
  = listenerCount x (dblclickListeners w).
Proof.
  intros H. unfold removeDoubleClickListener.
  destruct (querySelector activeTabSelector (document w)) as [a |];
    [| reflexivity].
  simpl. apply removeEventListener_count_other. now apply H.
Qed.

Lemma addDoubleClickListener_count_other (w : World) (x : nat) :
  (forall a, querySelector activeTabSelector (document w) = Some a -> eid a <> x) ->
  listenerCount x (dblclickListeners (addDoubleClickListener w))
  = listenerCount x (dblclickListeners w).
Proof.
  intros H.
  destruct (querySelector activeTabSelector (document w)) as [a |] eqn:Ha.
  - rewrite (addDoubleClickListener_active w a Ha).
    rewrite addEventListener_count_other by now apply H.
    apply removeEventListener_count_other. now apply H.
  - unfold addDoubleClickListener.
    rewrite (proj1 (removeDoubleClickListener_frame w)), Ha.
    apply removeDoubleClickListener_count_other.
    intros a Ha'. congruence.
Qed.

(** The observer stays connected through every event. *)
Lemma step_observing (src : SourceFile) (ev : Event) (w : World) :
  observing (step src ev w) = observing w.
Proof.
  destruct ev as [d | d | value | target | | acc | acc]; simpl.
  - destruct (observing w) eqn:Ho; [| exact Ho].
    unfold observerCallback. simpl.
    destruct (settings_enableDoubleClick w).
    + now rewrite (proj1 (proj2 (proj2 (addDoubleClickListener_frame _)))).
    + now rewrite (proj1 (proj2 (proj2 (removeDoubleClickListener_frame _)))).
  - now destruct (sameSkeleton (document w) d).
  - unfold runCallback, onChange, saveSettings. simpl.
    destruct (saveAccess w); simpl; [| reflexivity].
    destruct value.
    + now rewrite (proj1 (proj2 (proj2 (addDoubleClickListener_frame _)))).
    + now rewrite (proj1 (proj2 (proj2 (removeDoubleClickListener_frame _)))).
  - destruct (existsb _ _); [| reflexivity].
    apply (times_copyLink_frame src).
  - apply (runCallback_copyLink_frame src).
  - reflexivity.
  - reflexivity.
Qed.

Lemma onload_observing (src : SourceFile) (w : World) :
  observing (onload src w) = true.
Proof. reflexivity. Qed.

Lemma run_observing (src : SourceFile) (evs : list Event) (w : World) :
  observing (run src evs w) = observing w.
Proof.
  revert w. induction evs as [| ev evs IH]; intros w; simpl; [reflexivity |].
  now rewrite IH, step_observing.
Qed.

Lemma runCallback_copyLink_log (src : SourceFile) (w : World) :
  exists es,
    effects (runCallback (copyLink src) w) = effects w ++ es /\
    length (writes es) <= 1.
Proof.
  exists (newEffects w (runCallback (copyLink src) w)).
  split.
  - pose proof (copyLink_effects_append src w) as He.
    unfold runCallback in *.
    destruct (copyLink src w) as [w' | err w']; simpl in *.
    + rewrite (newEffects_extend w w' _ He). exact He.
    + rewrite (newEffects_extend w (emit (Uncaught err) w')
                 (copyLinkEffects src w ++ [Uncaught err])).
      * now rewrite He, <- app_assoc.
      * simpl. now rewrite He, <- app_assoc.
  - rewrite runCallback_copyLink_writes. apply copyLink_at_most_one_write.
Qed.

(** The listeners of one element: nothing is written when it carries
    none, and one write at most is asked for when it carries one. *)
Lemma element_listeners_log (src : SourceFile) (t : nat) (w : World) :
  NoDup (dblclickListeners w) ->
  exists es,
    effects (times (listenerCount t (dblclickListeners w))
                   (runCallback (handleDoubleClick src)) w)
      = effects w ++ es /\
    length (writes es)
      <= (if registered t (dblclickListeners w) then 1 else 0).
Proof.
  intros Hnd.
  pose proof (listenerCount_NoDup t _ Hnd) as Hle.
  destruct (listenerCount t (dblclickListeners w)) as [| [| n]] eqn:Hc;
    [| | lia].
  - exists []. simpl. rewrite app_nil_r. split; [reflexivity | lia].
  - assert (Hreg : registered t (dblclickListeners w) = true).
    { apply registered_In.
      destruct (in_dec Nat.eq_dec t (dblclickListeners w)) as [Hin | Hnin];
        [exact Hin |].
      apply listenerCount_zero in Hnin. congruence. }
    rewrite Hreg. simpl.
    change (runCallback (handleDoubleClick src) w)
      with (runCallback (copyLink src) w).
    apply runCallback_copyLink_log.
Qed.

Lemma bubble_log (src : SourceFile) (path : list Element) (w : World) :
  NoDup (dblclickListeners w) ->
  exists es,
    effects (bubble src path w) = effects w ++ es /\
    length (writes es) <= length (listening w path).
Proof.
  revert w. induction path as [| p path IH]; intros w Hnd; simpl.
  - exists []. rewrite app_nil_r. split; [reflexivity | simpl; lia].
  - set (w1 := times (listenerCount (eid p) (dblclickListeners w))
                     (runCallback (handleDoubleClick src)) w).
    destruct (element_listeners_log src (eid p) w Hnd) as (es1 & He1 & Hw1).
    fold w1 in He1.
    assert (Hl : dblclickListeners w1 = dblclickListeners w)
      by apply (times_copyLink_frame src).
    assert (Hnd1 : NoDup (dblclickListeners w1)) by (now rewrite Hl).
    destruct (IH w1 Hnd1) as (es2 & He2 & Hw2).
    exists (es1 ++ es2). split.
    + now rewrite He2, He1, app_assoc.
    + rewrite writes_app, length_app.
      unfold listening in *. rewrite Hl in Hw2.
      destruct (registered (eid p) (dblclickListeners w)); simpl; lia.
Qed.

Lemma bubble_silent (src : SourceFile) (path : list Element) (w : World) :
  (forall a, In a path -> listenerCount (eid a) (dblclickListeners w) = 0) ->
  bubble src path w = w.
Proof.
  induction path as [| p path IH]; intros H; simpl; [reflexivity |].
  rewrite (H p (or_introl eq_refl)). simpl.
  apply IH. intros a Ha. apply H. now right.
Qed.

(** X5.  One double-click, bubbling from its target up to the root,
    runs the listener of every element of its path that carries one.
    In a state reached after [onload] it therefore asks for at most as
    many clipboard writes as there are such elements on the path:
    none for a target outside the document, and one at most when no
    ancestor of the target carries a listener, in which case the event
    does what its delivery at the target alone does. *)
Theorem dblclick_writes_once_per_listener_on_path :
  forall (src : SourceFile) (w0 : World) (evs : list Event) (target : nat),
    dblclickListeners w0 = [] ->
    let w := run src evs (onload src w0) in
    let path := propagationPath target (document w) in
    length (writes (newEffects w (dispatchDblclick src target w)))
      <= length (listening w path) /\
    ((forall a, In a (tl path) ->
                listenerCount (eid a) (dblclickListeners w) = 0) ->
     dispatchDblclick src target w = step src (DoubleClick target) w /\
     length (writes (newEffects w (dispatchDblclick src target w))) <= 1).
Proof.
  intros src w0 evs target H0 w path.
  pose proof (reachable_NoDup src evs w0 H0) as Hnd. fold w in Hnd.
  assert (Hbound : length (writes (newEffects w (dispatchDblclick src target w)))
                   <= length (listening w path)).
  { unfold dispatchDblclick. fold path.
    destruct (bubble_log src path w Hnd) as (es & He & Hw).
    now rewrite (newEffects_extend w _ es He). }
  split; [exact Hbound |].
  intros Hanc.
  assert (Hstep : dispatchDblclick src target w = step src (DoubleClick target) w).
  { unfold dispatchDblclick. fold path. subst path.
    unfold propagationPath in *. simpl step. unfold elementIds.
    destruct (find (fun p => Nat.eqb (eid (snd p)) target)
                   (treeOrder [] (document w))) as [[anc e] |] eqn:F.
    - pose proof (find_some _ _ F) as [Hin He]. simpl in He.
      apply Nat.eqb_eq in He.
      assert (Hex : existsb (Nat.eqb target)
                      (map (fun p => eid (snd p)) (treeOrder [] (document w)))
                    = true).
      { apply existsb_exists. exists target. split; [| apply Nat.eqb_refl].
        rewrite <- He. now apply (in_map (fun p => eid (snd p))) in Hin. }
      rewrite Hex. simpl. rewrite He.
      apply bubble_silent. intros a Ha.
      rewrite (proj1 (proj2 (proj2 (times_copyLink_frame src _ w)))).
      apply Hanc. exact Ha.
    - assert (Hex : existsb (Nat.eqb target)
                      (map (fun p => eid (snd p)) (treeOrder [] (document w)))
                    = false).
      { destruct (existsb _ _) eqn:E; [| reflexivity].
        apply existsb_exists in E. destruct E as (y & Hy & Ey).
        apply Nat.eqb_eq in Ey. subst y.
        apply in_map_iff in Hy. destruct Hy as (q & Hq & Hin).
        pose proof (find_none _ _ F q Hin) as Hn. simpl in Hn.
        apply Nat.eqb_neq in Hn. congruence. }
      now rewrite Hex. }
  split; [exact Hstep |].
  eapply Nat.le_trans; [exact Hbound |].
  unfold listening. destruct path as [| e anc]; simpl; [lia |].
  assert (Hnone : filter (fun p => registered (eid p) (dblclickListeners w)) anc
                  = []).
  { simpl in Hanc. clear - Hanc.
    induction anc as [| a anc IH]; simpl; [reflexivity |].
    assert (Ha : registered (eid a) (dblclickListeners w) = false).
    { destruct (registered (eid a) (dblclickListeners w)) eqn:E; [| reflexivity].
      apply registered_In in E.
      pose proof (Hanc a (or_introl eq_refl)) as Hz.
      apply listenerCount_zero in Hz. contradiction. }
    rewrite Ha. apply IH. intros b Hb. apply Hanc. now right. }
  rewrite Hnone. destruct (registered (eid e) (dblclickListeners w)); simpl; lia.
Qed.

Lemma dblclick_writes_once_per_listener_on_path_witness :
  let w := run main_ts [ChildListMutation (nestedHeaders false true)]
               (onload main_ts (sampleWorld (nestedHeaders true false))) in
  dblclickListeners (sampleWorld (nestedHeaders true false)) = [] /\
  dblclickListeners w = [50; 60] /\
  map eid (propagationPath 60 (document w)) = [60; 50; 0] /\
  writes (newEffects w (dispatchDblclick main_ts 60 w)) = [ "[[Inner]]"; "[[Inner]]" ] /\
  length (writes (newEffects w (dispatchDblclick main_ts 60 w))) <= 2 /\
  writes (newEffects w (dispatchDblclick main_ts 50 w)) = [ "[[Inner]]" ] /\
  length (writes (newEffects w (dispatchDblclick main_ts 50 w))) <= 1.
Proof.
  intros w. split; [reflexivity |]. split; [reflexivity |].
  split; [reflexivity |]. split; [reflexivity |]. split.
  - exact (proj1 (dblclick_writes_once_per_listener_on_path main_ts
                    (sampleWorld (nestedHeaders true false))
                    [ChildListMutation (nestedHeaders false true)] 60 eq_refl)).
  - split; [reflexivity |].
    apply (dblclick_writes_once_per_listener_on_path main_ts
             (sampleWorld (nestedHeaders true false))
             [ChildListMutation (nestedHeaders false true)] 50 eq_refl).
    intros a [<- | []]. reflexivity.
Defined.



(** X7.  [onload] on a fresh plugin instance: the setting is the
    stored one, or on when nothing is stored; the observer is
    connected; the listener is put on the header that is active at
    that moment when the setting is on, and nowhere when it is off or
    no header is active. *)
Theorem onload_initial_state :
  forall (src : SourceFile) (w0 : World),
    dblclickListeners w0 = [] ->
    let w := onload src w0 in
    settings_enableDoubleClick w =
      match storedData w0 with Some b => b | None => true end /\
    observing w = true /\
    document w = document w0 /\
    dblclickListeners w =
      match querySelector activeTabSelector (document w0) with
      | Some a => if settings_enableDoubleClick w then [eid a] else []
      | None => []
      end.
Proof.
  intros src w0 H0 w. subst w. unfold onload.
  set (w1 := match src with part_000 => w0 | main_ts => _ end).
  assert (Hl : dblclickListeners w1 = []) by (subst w1; now destruct src).
  assert (Hd : document w1 = document w0) by (subst w1; now destruct src).
  assert (Hst : storedData w1 = storedData w0) by (subst w1; now destruct src).
  clearbody w1.
  set (b := match storedData w0 with Some b => b | None => true end).
  assert (Hb : settings_enableDoubleClick (loadSettings w1) = b)
    by (subst b; simpl; now rewrite Hst).
  rewrite Hb. cbv zeta.
  destruct b.
  - destruct (addDoubleClickListener_frame (loadSettings w1)) as (Hd' & Hen' & _).
    cbn [observing settings_enableDoubleClick document dblclickListeners
         setObserving].
    split; [congruence |]. split; [reflexivity |].
    split; [rewrite Hd'; exact Hd |].
    rewrite Hen', Hb.
    destruct (querySelector activeTabSelector (document w0)) as [a |] eqn:Ha.
    + rewrite (addDoubleClickListener_active (loadSettings w1) a)
        by (simpl; now rewrite Hd).
      simpl. rewrite Hl. reflexivity.
    + unfold addDoubleClickListener, removeDoubleClickListener.
      simpl. rewrite Hd, Ha. simpl. now rewrite Hd, Ha.
  - cbn [observing settings_enableDoubleClick document dblclickListeners
         setObserving].
    split; [exact Hb |]. split; [reflexivity |]. split; [exact Hd |].
    rewrite Hb. simpl. rewrite Hl.
    now destruct (querySelector activeTabSelector (document w0)).
Qed.

Lemma onload_initial_state_witness :
  dblclickListeners (sampleWorld notesActive) = [] /\
  dblclickListeners (onload main_ts (sampleWorld notesActive)) = [10] /\
  dblclickListeners
    (onload main_ts (setStoredData (Some false) (sampleWorld notesActive))) = [].
Proof.
  split; [reflexivity |]. split.
  - rewrite (proj2 (proj2 (proj2
      (onload_initial_state main_ts (sampleWorld notesActive) eq_refl)))).
    reflexivity.
  - rewrite (proj2 (proj2 (proj2
      (onload_initial_state main_ts
         (setStoredData (Some false) (sampleWorld notesActive)) eq_refl)))).
    reflexivity.
Defined.







(** X9.  An event changes the listeners of one element at most: the
    header that is active once the event has been handled.  On every
    other element the number of listeners is what it was before, so a
    listener put on a header stays there until that header is the
    active one at a later reconciliation. *)
Theorem listeners_change_on_active_header_only :
  forall (src : SourceFile) (ev : Event) (w : World) (x : nat),
    (forall a, querySelector activeTabSelector (document (step src ev w)) = Some a ->
               eid a <> x) ->
    listenerCount x (dblclickListeners (step src ev w))
    = listenerCount x (dblclickListeners w).
Proof.
  intros src ev w x H.
  destruct ev as [d | d | value | target | | acc | acc]; simpl in H |- *.
  - destruct (observing w); [| reflexivity].
    unfold observerCallback in *. simpl in *.
    destruct (settings_enableDoubleClick w).
    + rewrite (proj1 (addDoubleClickListener_frame _)) in H.
      now rewrite addDoubleClickListener_count_other.
    + rewrite (proj1 (removeDoubleClickListener_frame _)) in H.
      now rewrite removeDoubleClickListener_count_other.
  - now destruct (sameSkeleton (document w) d).
  - unfold runCallback, onChange, saveSettings in *. simpl in *.
    destruct (saveAccess w); simpl in *; [| reflexivity].
    destruct value.
    + rewrite (proj1 (addDoubleClickListener_frame _)) in H.
      now rewrite addDoubleClickListener_count_other.
    + rewrite (proj1 (removeDoubleClickListener_frame _)) in H.
      now rewrite removeDoubleClickListener_count_other.
  - destruct (existsb _ _); [| reflexivity].
    now rewrite (proj1 (proj2 (proj2 (times_copyLink_frame src _ w)))).
  - now rewrite (proj1 (proj2 (proj2 (runCallback_copyLink_frame src w)))).
  - reflexivity.
  - reflexivity.
Qed.

Lemma listeners_change_on_active_header_only_witness :
  let w := run part_000 [ChildListMutation docsActive]
               (onload part_000 (sampleWorld notesActive)) in
  (forall a, querySelector activeTabSelector
               (document (step part_000 (ToggleSetting false) w)) = Some a ->
             eid a <> 10) /\
  listenerCount 10 (dblclickListeners w) = 1 /\
  listenerCount 10 (dblclickListeners (step part_000 (ToggleSetting false) w)) = 1.
Proof.
  intros w.
  assert (H : forall a, querySelector activeTabSelector
                          (document (step part_000 (ToggleSetting false) w)) = Some a ->
                        eid a <> 10).
  { intros a Ha. vm_compute in Ha. injection Ha as <-. discriminate. }
  split; [exact H |]. split; [reflexivity |].
  rewrite (listeners_change_on_active_header_only part_000 (ToggleSetting false)
             w 10 H).
  reflexivity.
Defined.

(** X10.  [onunload] in a state reached after [onload]: the observer
    is disconnected, so later node changes leave the listeners alone;
    the listener is taken off the header that is active at that
    moment; and every other element keeps the listeners it has, the
    headers that were active earlier included. *)
Theorem onunload_detaches_active_header_only :
  forall (src : SourceFile) (w0 : World) (evs : list Event),
    dblclickListeners w0 = [] ->
    let w := run src evs (onload src w0) in
    let u := onunload src w in
    observing u = false /\
    (forall d, dblclickListeners (step src (ChildListMutation d) u)
               = dblclickListeners u) /\
    (forall a, querySelector activeTabSelector (document w) = Some a ->
               listenerCount (eid a) (dblclickListeners u) = 0) /\
    (forall x,
        (forall a, querySelector activeTabSelector (document w) = Some a ->
                   eid a <> x) ->
        listenerCount x (dblclickListeners u)
        = listenerCount x (dblclickListeners w)).
Proof.
  intros src w0 evs H0 w u.
  pose proof (reachable_NoDup src evs w0 H0) as Hnd. fold w in Hnd.
  subst u. unfold onunload.
  set (w1 := match src with part_000 => w | main_ts => _ end).
  assert (Hl : dblclickListeners w1 = dblclickListeners w)
    by (subst w1; now destruct src).
  assert (Hd : document w1 = document w) by (subst w1; now destruct src).
  clearbody w1.
  cbn [observing dblclickListeners setObserving].
  split; [reflexivity |]. split; [reflexivity |]. split.
  - intros a Ha. rewrite <- Hd in Ha.
    rewrite (removeDoubleClickListener_active w1 a Ha), Hl.
    apply listenerCount_zero. now apply removeEventListener_gone.
  - intros x Hx. rewrite <- Hl.
    apply removeDoubleClickListener_count_other. now rewrite Hd.
Qed.

Lemma onunload_detaches_active_header_only_witness :
  let w := run main_ts [ChildListMutation docsActive]
               (onload main_ts (sampleWorld notesActive)) in
  dblclickListeners (sampleWorld notesActive) = [] /\
  dblclickListeners w = [10; 20] /\
  observing (onunload main_ts w) = false /\
  listenerCount 20 (dblclickListeners (onunload main_ts w)) = 0 /\
  dblclickListeners (onunload main_ts w) = [10].
Proof.
  intros w. split; [reflexivity |]. split; [reflexivity |].
  destruct (onunload_detaches_active_header_only main_ts (sampleWorld notesActive)
              [ChildListMutation docsActive] eq_refl) as (Ho & _ & Hz & _).
  split; [exact Ho |]. split; [exact (Hz docsHeader eq_refl) | reflexivity].
Defined.

Lemma onload_settings (src : SourceFile) (w : World) :
  settings_enableDoubleClick (onload src w)
  = match storedData w with Some b => b | None => DEFAULT_SETTINGS end.
Proof.
  unfold onload.
  set (w1 := match src with part_000 => w | main_ts => _ end).
  assert (Hst : storedData w1 = storedData w) by (subst w1; now destruct src).
  clearbody w1.
  assert (Hb : settings_enableDoubleClick (loadSettings w1)
               = match storedData w with Some b => b | None => DEFAULT_SETTINGS end)
    by (simpl; now rewrite Hst).
  destruct (settings_enableDoubleClick (loadSettings w1)) eqn:E; cbv zeta;
    cbn [settings_enableDoubleClick setObserving].
  - rewrite (proj1 (proj2 (addDoubleClickListener_frame (loadSettings w1)))).
    now rewrite E.
  - now rewrite E.
Qed.

Lemma step_toggle_stored (src : SourceFile) (value : bool) (w : World) :
  saveAccess w = Fulfilled ->
  storedData (step src (ToggleSetting value) w) = Some value /\
  settings_enableDoubleClick (step src (ToggleSetting value) w) = value /\
  saveAccess (step src (ToggleSetting value) w) = Fulfilled.
Proof.
  intros Hs. simpl. rewrite (onChange_saved value w Hs). cbv zeta.
  destruct value.
  - destruct (addDoubleClickListener_frame
                (setStoredData (Some true) (setEnableDoubleClick true w)))
      as (_ & Hen & _ & Hsa & _).
    destruct (addDoubleClickListener_rest
                (setStoredData (Some true) (setEnableDoubleClick true w)))
      as (Hst & _).
    rewrite Hen, Hsa, Hst. simpl. auto.
  - destruct (removeDoubleClickListener_frame
                (setStoredData (Some false) (setEnableDoubleClick false w)))
      as (_ & Hen & _ & Hsa & _).
    destruct (removeDoubleClickListener_rest
                (setStoredData (Some false) (setEnableDoubleClick false w)))
      as (Hst & _).
    rewrite Hen, Hsa, Hst. simpl. auto.
Qed.

(** X11.  A toggle whose save succeeds survives a reload: the chosen
    value is in the stored data, and [onload] run on the resulting
    state (a restart of the plugin) reads the same value back. *)
Theorem toggle_survives_reload :
  forall (src : SourceFile) (w : World) (value : bool),
    saveAccess w = Fulfilled ->
    let w' := step src (ToggleSetting value) w in
    settings_enableDoubleClick w' = value /\
    storedData w' = Some value /\
    settings_enableDoubleClick (onload src w') = value.
Proof.
  intros src w value Hs w'.
  destruct (step_toggle_stored src value w Hs) as (Hst & Hen & _).
  fold w' in Hst, Hen.
  split; [exact Hen |]. split; [exact Hst |].
  rewrite onload_settings, Hst. reflexivity.
Qed.

Lemma toggle_survives_reload_witness :
  let w := onload part_000 (sampleWorld notesActive) in
  saveAccess w = Fulfilled /\
  settings_enableDoubleClick w = true /\
  settings_enableDoubleClick
    (onload part_000 (step part_000 (ToggleSetting false) w)) = false.
Proof.
  intros w. split; [reflexivity |]. split; [reflexivity |].
  exact (proj2 (proj2 (toggle_survives_reload part_000 w false eq_refl))).
Defined.

(** X12.  A toggle whose save is refused changes the setting in memory
    only: the stored data and the listeners stay as they were and the
    rejection is left unhandled, so a reload brings the old setting
    back.  The listeners follow the new value at the next node change
    the observer sees. *)
Theorem toggle_with_refused_save :
  forall (src : SourceFile) (w0 : World) (evs : list Event)
         (value : bool) (reason : string),
    dblclickListeners w0 = [] ->
    let w := run src evs (onload src w0) in
    saveAccess w = Rejected reason ->
    let w' := step src (ToggleSetting value) w in
    settings_enableDoubleClick w' = value /\
    storedData w' = storedData w /\
    dblclickListeners w' = dblclickListeners w /\
    newEffects w w' = [Uncaught reason] /\
    settings_enableDoubleClick (onload src w') =
      match storedData w with Some b => b | None => true end /\
    (forall d a, querySelector activeTabSelector d = Some a ->
       listenerCount (eid a)
         (dblclickListeners (step src (ChildListMutation d) w'))
       = if value then 1 else 0).
Proof.
  intros src w0 evs value reason H0 w Hs w'.
  pose proof (reachable_NoDup src evs w0 H0) as Hnd. fold w in Hnd.
  assert (Ho : observing w = true)
    by (subst w; now rewrite run_observing, onload_observing).
  assert (Hw' : w' = emit (Uncaught reason) (setEnableDoubleClick value w))
    by (subst w'; simpl; now apply onChange_save_rejected).
  rewrite Hw'.
  split; [reflexivity |]. split; [reflexivity |]. split; [reflexivity |].
  split; [now apply newEffects_extend |].
  split; [now rewrite onload_settings |].
  intros d a Ha. simpl. rewrite Ho. unfold observerCallback. simpl.
  set (v := setDocument d (emit (Uncaught reason) (setEnableDoubleClick value w))).
  assert (Hav : querySelector activeTabSelector (document v) = Some a) by exact Ha.
  assert (Hndv : NoDup (dblclickListeners v)) by exact Hnd.
  destruct value.
  - rewrite (addDoubleClickListener_active v a Hav).
    apply listenerCount_one.
    + now apply addEventListener_NoDup, removeEventListener_NoDup.
    + apply addEventListener_In.
  - rewrite (removeDoubleClickListener_active v a Hav).
    apply listenerCount_zero. now apply removeEventListener_gone.
Qed.

Lemma toggle_with_refused_save_witness :
  let evs := [SaveAccessChange (Rejected "EACCES")] in
  let w := run part_000 evs (onload part_000 (sampleWorld notesActive)) in
  let w' := step part_000 (ToggleSetting false) w in
  dblclickListeners (sampleWorld notesActive) = [] /\
  saveAccess w = Rejected "EACCES" /\
  settings_enableDoubleClick w' = false /\
  dblclickListeners w' = [10] /\
  settings_enableDoubleClick (onload part_000 w') = true /\
  listenerCount 10
    (dblclickListeners (step part_000 (ChildListMutation notesActive) w')) = 0.
Proof.
  intros evs w w'.
  split; [reflexivity |]. split; [reflexivity |].
  destruct (toggle_with_refused_save part_000 (sampleWorld notesActive) evs
              false "EACCES" eq_refl eq_refl)
    as (Hen & _ & Hl & _ & Hre & Hnext).
  split; [exact Hen |]. split; [exact Hl |]. split; [exact Hre |].
  exact (Hnext notesActive notesHeader eq_refl).
Defined.

Lemma step_settingsPersisted (src : SourceFile) (ev : Event) (w : World) :
  savesSucceed ev = true -> settingsPersisted w ->
  settingsPersisted (step src ev w).
Proof.
  intros Hev (Hs & Hp). unfold settingsPersisted.
  destruct ev as [d | d | value | target | | acc | acc]; simpl in Hev.
  - simpl. destruct (observing w); [| now split].
    unfold observerCallback. simpl.
    destruct (settings_enableDoubleClick w) eqn:Hen.
    + destruct (addDoubleClickListener_frame (setDocument d w))
        as (_ & Hen' & _ & Hs' & _).
      destruct (addDoubleClickListener_rest (setDocument d w)) as (Hst & _).
      rewrite Hen', Hs', Hst. simpl. rewrite ?Hen. now split.
    + destruct (removeDoubleClickListener_frame (setDocument d w))
        as (_ & Hen' & _ & Hs' & _).
      destruct (removeDoubleClickListener_rest (setDocument d w)) as (Hst & _).
      rewrite Hen', Hs', Hst. simpl. rewrite ?Hen. now split.
  - simpl. now destruct (sameSkeleton (document w) d).
  - destruct (step_toggle_stored src value w Hs) as (Hst & Hen & Hs').
    rewrite Hst, Hen, Hs'. now split.
  - simpl. destruct (existsb _ _); [| now split].
    destruct (times_copyLink_frame src
                (listenerCount target (dblclickListeners w)) w)
      as (_ & Hen & _ & _ & Hs').
    rewrite Hen, Hs', times_copyLink_storedData. now split.
  - simpl.
    destruct (runCallback_copyLink_frame src w) as (_ & Hen & _ & _ & Hs').
    rewrite Hen, Hs'.
    replace (storedData (runCallback (copyLink src) w)) with (storedData w);
      [now split |].
    pose proof (copyLink_frame src w) as H. unfold runCallback.
    destruct (copyLink src w); simpl in *; symmetry; tauto.
  - simpl. now split.
  - simpl. destruct acc; [now split | discriminate].
Qed.

Lemma onload_settingsPersisted (src : SourceFile) (w0 : World) :
  saveAccess w0 = Fulfilled -> settingsPersisted (onload src w0).
Proof.
  intros Hs. split.
  - unfold onload.
    set (w1 := loadSettings _).
    assert (Hs1 : saveAccess w1 = Fulfilled) by (subst w1; destruct src; exact Hs).
    destruct (settings_enableDoubleClick w1); cbv zeta;
      cbn [saveAccess setObserving]; [| exact Hs1].
    now rewrite (proj1 (proj2 (proj2 (proj2 (addDoubleClickListener_frame w1))))).
  - rewrite onload_settings.
    unfold onload.
    set (w1 := loadSettings _).
    assert (Hst : storedData w1 = storedData w0) by (subst w1; now destruct src).
    destruct (settings_enableDoubleClick w1); cbv zeta;
      cbn [storedData setObserving]; [| now rewrite Hst].
    now rewrite (proj1 (addDoubleClickListener_rest w1)), Hst.
Qed.

(** X13.  As long as saving works, the setting in memory and the
    stored data never drift apart: after [onload] and any sequence of
    events, a reload of the plugin finds the setting it had. *)
Theorem settings_stay_persisted :
  forall (src : SourceFile) (w0 : World) (evs : list Event),
    saveAccess w0 = Fulfilled ->
    forallb savesSucceed evs = true ->
    let w := run src evs (onload src w0) in
    settings_enableDoubleClick (loadSettings w) = settings_enableDoubleClick w /\
    settings_enableDoubleClick (onload src w) = settings_enableDoubleClick w.
Proof.
  intros src w0 evs Hs Hevs w.
  assert (Hp : settingsPersisted w).
  { subst w. generalize (onload_settingsPersisted src w0 Hs).
    generalize (onload src w0). clear - Hevs.
    induction evs as [| ev evs IH]; intros v Hv; simpl; [exact Hv |].
    simpl in Hevs. apply andb_prop in Hevs. destruct Hevs as [Hev Hevs].
    apply IH; [exact Hevs |]. now apply step_settingsPersisted. }
  destruct Hp as (_ & Hp).
  split.
  - simpl. now rewrite Hp.
  - rewrite onload_settings. now rewrite Hp.
Qed.

Lemma settings_stay_persisted_witness :
  let evs := [ToggleSetting false; AttributeMutation docsActive;
              DoubleClick 10; ToggleSetting true; ToggleSetting false] in
  let w := run main_ts evs (onload main_ts (sampleWorld notesActive)) in
  saveAccess (sampleWorld notesActive) = Fulfilled /\
  forallb savesSucceed evs = true /\
  settings_enableDoubleClick w = false /\
  settings_enableDoubleClick (onload main_ts w) = false.
Proof.
  intros evs w.
  split; [reflexivity |]. split; [reflexivity |]. split; [reflexivity |].
  transitivity (settings_enableDoubleClick w); [| reflexivity].
  exact (proj2 (settings_stay_persisted main_ts (sampleWorld notesActive)
                  evs eq_refl eq_refl)).
Defined.
